(** * PredictionSystem: the prediction form's front end (App.jsx)

    A shallow embedding of the orchestration logic of
    [frontend/prediction_form/src/App.jsx]: the chart aggregation of
    [PredictionPieChart], the form coercion of [PredictionForm], the two
    request promises and the settlement handling of [handlePrediction], the
    history listener and [handleClearHistory].

    JavaScript numbers are IEEE binary64 values, here the kernel's [float].
    React state is a record, the Firestore collection of a user a finite map
    from document ids to documents, and the asynchronous handlers are
    computations in a monad of state, exceptions and an event log. *)

From Stdlib Require Import Floats.PrimFloat Ascii.
From stdpp Require Import gmap strings list fin_maps.

Set Warnings "-inexact-float,-register-all".
Local Open Scope string_scope.
Local Open Scope list_scope.

(** ** JavaScript values *)

(** The values the handlers see: what [JSON.parse] produces, plus
    [undefined]. An object is its list of own properties. *)
Inductive JsValue : Type :=
| VUndefined
| VNull
| VBool (b : bool)
| VNum (x : float)
| VStr (s : string)
| VArr (items : list JsValue)
| VObj (props : list (string * JsValue)).

(** An [Error] object (also [TypeError], [SyntaxError]); only its message is
    ever read. *)
Record Error := MkError { message : string }.

(** What the host provides and Rocq does not: [parseFloat] (applied to a
    string or, for a select's option, to a number) and the decimal
    formatting of a number, [Number.prototype.toString]. *)
Class JsRuntime := {
  parseFloat : JsValue -> float;
  NumberToString : float -> string
}.

(** [ToBoolean]: what [||], [&&] and [!] test. *)
Definition truthy (v : JsValue) : bool :=
  match v with
  | VUndefined | VNull => false
  | VBool b => b
  | VNum x => negb (PrimFloat.eqb x 0 || PrimFloat.is_nan x)
  | VStr s => negb (bool_decide (s = ""))
  | VArr _ | VObj _ => true
  end.

(** [v === ''] *)
Definition is_empty_string (v : JsValue) : bool :=
  match v with
  | VStr s => bool_decide (s = "")
  | _ => false
  end.

(** [v === 1] *)
Definition is_one (v : JsValue) : bool :=
  match v with
  | VNum x => PrimFloat.eqb x 1
  | _ => false
  end.

Fixpoint assoc (k : string) (props : list (string * JsValue)) : JsValue :=
  match props with
  | [] => VUndefined
  | (k', v) :: rest => if decide (k' = k) then v else assoc k rest
  end.

(** [v.k] for a property name [k] that is neither [length], an index nor a
    built-in method name ([detail], [prediction], [probability_has_disease]):
    reading it off [null] or [undefined] throws a TypeError (the message is
    V8's), a primitive or an array has no such property. *)
Definition get_prop (v : JsValue) (k : string) : Error + JsValue :=
  match v with
  | VUndefined =>
      inl (MkError ("Cannot read properties of undefined (reading '" +:+ k +:+ "')"))
  | VNull =>
      inl (MkError ("Cannot read properties of null (reading '" +:+ k +:+ "')"))
  | VObj props => inr (assoc k props)
  | _ => inr VUndefined
  end.

(** Whether an object has an own property [k]. *)
Definition has_key (k : string) (props : list (string * JsValue)) : bool :=
  existsb (fun p => bool_decide (p.1 = k)) props.

Section Runtime.
Context `{JsRuntime}.

(** [ToString], which throws on some objects. An array joins its elements
    with commas, from left to right, [null] and [undefined] elements
    printing as nothing. An object of a parsed body prints through the
    inherited [Object.prototype.toString] as [[object Object]], unless an
    own property [toString] shadows it: a parsed value is never callable,
    the inherited [valueOf] returns the object itself, and the conversion
    throws a TypeError (the message is V8's). *)
Fixpoint ToString (v : JsValue) : Error + string :=
  match v with
  | VUndefined => inr "undefined"
  | VNull => inr "null"
  | VBool true => inr "true"
  | VBool false => inr "false"
  | VNum x => inr (NumberToString x)
  | VStr s => inr s
  | VArr items =>
      (fix join (l : list JsValue) : Error + string :=
         match l with
         | [] => inr ""
         | x :: rest =>
             match (match x with
                    | VUndefined | VNull => inr ""
                    | _ => ToString x
                    end) with
             | inl type_error => inl type_error
             | inr elt =>
                 match rest with
                 | [] => inr elt
                 | _ =>
                     match join rest with
                     | inl type_error => inl type_error
                     | inr tail => inr (elt +:+ "," +:+ tail)
                     end
                 end
             end
         end) items
  | VObj props =>
      if has_key "toString" props
      then inl (MkError "Cannot convert object to primitive value")
      else inr "[object Object]"
  end.

(** [new Error(v)]: the message is [ToString v], whose TypeError the
    construction passes on; no argument leaves the message empty. *)
Definition new_Error (v : JsValue) : Error + Error :=
  match v with
  | VUndefined => inr (MkError "")
  | _ =>
      match ToString v with
      | inl type_error => inl type_error
      | inr msg => inr (MkError msg)
      end
  end.
End Runtime.

(** ** PredictionPieChart *)

(** The names every object literal inherits from [Object.prototype]: the
    standard methods, [constructor], and the accessors of Annex B with
    [__proto__] among them. Reading one of them off [{}] gives the inherited
    value and not [undefined], and assigning to [__proto__] creates no
    key. *)
Definition Object_prototype_names : list string :=
  ["constructor"; "hasOwnProperty"; "isPrototypeOf"; "propertyIsEnumerable";
   "toLocaleString"; "toString"; "valueOf"; "__proto__";
   "__defineGetter__"; "__defineSetter__"; "__lookupGetter__"; "__lookupSetter__"].

Definition inherited_name (k : string) : bool :=
  bool_decide (k ∈ Object_prototype_names).

Definition is_digit (c : ascii) : bool :=
  let n := nat_of_ascii c in (48 <=? n)%nat && (n <=? 57)%nat.

Fixpoint all_digits (k : string) : bool :=
  match k with
  | EmptyString => true
  | String c rest => is_digit c && all_digits rest
  end.

(** A non-empty string of decimal digits. Every array index is one, and
    [Object.keys] lists the array indices among the keys first, in ascending
    order, whenever they were added. *)
Definition index_like (k : string) : bool :=
  negb (bool_decide (k = "")) && all_digits k.

(** The keys on which an object literal is a plain map that lists its keys
    in the order they were added: not inherited, not an array index. *)
Definition ordinary_key (k : string) : bool :=
  negb (inherited_name k) && negb (index_like k).

(** [acc[disease] = (acc[disease] || 0) + 1] on an object whose keys are
    disease names, for a name that [inherited_name] does not hold of (for
    one it does, [acc[disease]] is the inherited value and the count
    becomes a string or, for [__proto__], no key is made): the count of an
    existing key is updated in place, a new key is added after the others.
    That is the order [Object.keys] lists them in when the names are
    [ordinary_key]s; array indices come first in it. *)
Fixpoint bump (acc : list (string * nat)) (disease : string) : list (string * nat) :=
  match acc with
  | [] => [(disease, 0 + 1)]
  | (k, n) :: rest =>
      if decide (k = disease) then (k, n + 1) :: rest
      else (k, n) :: bump rest disease
  end.

(** [predictionHistory.reduce((acc, disease) => ..., {})] *)
Definition diseaseCounts (predictionHistory : list string) : list (string * nat) :=
  fold_left bump predictionHistory [].

Definition toUpperCase_ascii (c : ascii) : ascii :=
  let n := nat_of_ascii c in
  if (97 <=? n)%nat && (n <=? 122)%nat then ascii_of_nat (n - 32) else c.

(** The first character of a name is in ASCII (or the name is empty). *)
Definition ascii_initial (disease : string) : bool :=
  match disease with
  | EmptyString => true
  | String c _ => (nat_of_ascii c <? 128)%nat
  end.

(** [disease.charAt(0).toUpperCase() + disease.slice(1)], for a name whose
    first character is in ASCII ([ascii_initial]); [toUpperCase] follows
    Unicode on the others. *)
Definition capitalize (disease : string) : string :=
  match disease with
  | EmptyString => EmptyString
  | String c rest => String (toUpperCase_ascii c) rest
  end.

Record PieDatum := { name : string; value : nat }.

(** [Object.keys(diseaseCounts).map(disease => ({name, value}))] *)
Definition pieChartData (predictionHistory : list string) : list PieDatum :=
  map (fun '(disease, n) => {| name := capitalize disease; value := n |})
      (diseaseCounts predictionHistory).

(** The palette of the theme: primary, success, error, secondary. *)
Definition COLORS : list string := ["#2196f3"; "#4caf50"; "#f44336"; "#ff9800"].

(** The [fill] of each [Cell]: [COLORS[index % COLORS.length]]. *)
Definition cell_fills (predictionHistory : list string) : list (option string) :=
  imap (fun index _ => COLORS !! (index `mod` length COLORS))
       (pieChartData predictionHistory).

(** The position of a disease among the keys of the counts, and through it
    the fill of its slice. *)
Fixpoint index_of (disease : string) (keys : list string) : option nat :=
  match keys with
  | [] => None
  | k :: rest => if decide (k = disease) then Some 0 else S <$> index_of disease rest
  end.

Definition fill_of (predictionHistory : list string) (disease : string) : option string :=
  i ← index_of disease (map fst (diseaseCounts predictionHistory));
  mjoin (cell_fills predictionHistory !! i).

(** ** PredictionForm *)

Section Form.
Context `{JsRuntime}.

(** [handleInputChange]: the event's [name] and [value], and the form data
    it sets ([{...formData, [name]: newValue}]). *)
Definition handleInputChange (formData : gmap string JsValue)
    (name : string) (value : JsValue) : gmap string JsValue :=
  let newValue := if is_empty_string value then VStr "" else VNum (parseFloat value) in
  <[name := newValue]> formData.
End Form.

(** ** The two requests of a submission *)

(** [response.json()]: the parsed body, or the rejection of a body that is
    not JSON. *)
Inductive JsonResult :=
| JsonRejects (e : Error)
| JsonResolves (v : JsValue).

(** [fetch(...)]: rejected when the transport fails, otherwise a response
    with its [ok] flag (status 200 to 299) and body. *)
Inductive FetchResult :=
| FetchRejects (e : Error)
| FetchResolves (ok : bool) (body : JsonResult).

(** An entry of [Promise.allSettled]: [{status: 'fulfilled', value}] or
    [{status: 'rejected', reason}]. *)
Inductive Settled :=
| Fulfilled (v : JsValue)
| Rejected (reason : Error).

Section Requests.
Context `{JsRuntime}.

(** [fetch(...).then(response => { if (!response.ok) { return
    response.json().then(errorData => { throw new Error(errorData.detail
    || generic); }); } return response.json(); })] *)
Definition then_response (generic : string) (r : FetchResult) : Settled :=
  match r with
  | FetchRejects e => Rejected e
  | FetchResolves ok body =>
      if negb ok then
        match body with
        | JsonRejects e => Rejected e
        | JsonResolves errorData =>
            match get_prop errorData "detail" with
            | inl type_error => Rejected type_error
            | inr detail =>
                match new_Error (if truthy detail then detail else VStr generic) with
                | inl type_error => Rejected type_error
                | inr e => Rejected e
                end
            end
        end
      else
        match body with
        | JsonRejects e => Rejected e
        | JsonResolves v => Fulfilled v
        end
  end.

Definition predictionPromise : FetchResult -> Settled :=
  then_response "Something went wrong with the prediction.".

Definition shapPromise : FetchResult -> Settled :=
  then_response "Something went wrong with the SHAP explanation.".
End Requests.

(** ** The history collection in Firestore *)

(** A document of [prediction_history], as [handlePrediction] writes it. *)
Record HistoryDoc := {
  disease_name : string;
  prediction_result : JsValue;
  probability : JsValue;
  formData : gmap string JsValue;
  timestamp : nat
}.

(** The database: each collection path with its documents by id. *)
Abbreviation Collection := (gmap positive HistoryDoc).
Abbreviation Firestore := (gmap string (gmap positive HistoryDoc)).

Definition docs_at (fs : Firestore) (path : string) : Collection :=
  default ∅ (fs !! path).

(** The documents of a query snapshot, in the store's order. *)
Definition snapshot_of (fs : Firestore) (path : string) : list (positive * HistoryDoc) :=
  map_to_list (docs_at fs path).

(** The [onSnapshot] callback: [history] is filled by [forEach], a document
    is pushed only when [data.prediction_result === 1]. *)
Definition onSnapshot_history (querySnapshot : list HistoryDoc) : list string :=
  fold_left (fun history data =>
               if is_one (prediction_result data)
               then (history ++ [disease_name data])%list
               else history)
            querySnapshot [].

(** The counts the chart shows for a snapshot of the log. *)
Definition aggregate (querySnapshot : list HistoryDoc) : list (string * nat) :=
  diseaseCounts (onSnapshot_history querySnapshot).

(** ** The App component: state, closure and effects *)

Record ClearHistoryMessage := { open : bool; title : string; content : string }.

Record AppState := {
  prediction : JsValue;
  shapData : JsValue;
  isLoading : bool;
  isClearingHistory : bool;
  clearHistoryMessage : ClearHistoryMessage;
  predictionHistory : list string
}.

Inductive DbHandle := firestoreDb.

(** What a handler closes over: the selected disease, the Firestore handle,
    the user id, and the global [__app_id] when it is defined. *)
Record Closure := {
  selectedDisease : string;
  db : option DbHandle;
  userId : option string;
  app_id : option string
}.

(** [db] and [userId] as conditions: [null] is falsy, and so is an empty
    user id. *)
Definition db_truthy (cl : Closure) : bool :=
  match db cl with Some _ => true | None => false end.

Definition userId_truthy (cl : Closure) : bool :=
  match userId cl with Some u => negb (bool_decide (u = "")) | None => false end.

(** [`/artifacts/${appId}/users/${userId}/prediction_history`] *)
Definition collectionPath (cl : Closure) : string :=
  let appId := default "default-app-id" (app_id cl) in
  "/artifacts/" +:+ appId +:+ "/users/" +:+ default "null" (userId cl)
    +:+ "/prediction_history".

Record World := { ui : AppState; firestore : Firestore }.

Inductive event :=
| SetIsLoading (b : bool)
| SetPrediction (v : JsValue)
| SetShapData (v : JsValue)
| SetIsClearingHistory (b : bool)
| SetClearHistoryMessage (m : ClearHistoryMessage)
| SetPredictionHistory (history : list string)
| Fetch (url : string) (body : gmap string JsValue)
| AllSettled
| AddDoc (path : string) (d : HistoryDoc)
| GetDocs (path : string)
| BatchDelete (path : string) (id : positive)
| BatchCommit
| ConsoleError (label : string) (e : Error)
| ConsoleLog (line : string).

(** How the outside world settles what a submission awaits: the two
    responses, whether the store accepts the write ([None]) or rejects it,
    and the time the server stamps the document with. A promise that never
    settles is not one of these outcomes; [handlePrediction_awaiting] has
    it. *)
Record SubmitEnv := {
  predict_response : FetchResult;
  explain_response : FetchResult;
  addDoc_result : option Error;
  server_time : nat
}.

(** How the outside world settles what a clear awaits: whether the read
    and the commit succeed, and the documents other submissions append
    between the read and the commit. A promise that never settles is not one
    of these outcomes; [handleClearHistory_awaiting] has it. *)
Record ClearEnv := {
  getDocs_result : option Error;
  appended_meanwhile : list HistoryDoc;
  commit_result : option Error
}.

(** ** A monad for the handlers: state, exceptions, event log *)

Inductive completion (A : Type) :=
| Normal (a : A)
| Throw (e : Error).
Arguments Normal {A} a.
Arguments Throw {A} e.

Definition M (A : Type) : Type := World -> completion A * World * list event.

Definition ret {A} (a : A) : M A := fun w => (Normal a, w, []).

Definition bind {A B} (m : M A) (k : A -> M B) : M B :=
  fun w =>
    let '(c, w1, ev1) := m w in
    match c with
    | Normal a => let '(c2, w2, ev2) := k a w1 in (c2, w2, (ev1 ++ ev2)%list)
    | Throw e => (Throw e, w1, ev1)
    end.

#[global] Instance M_ret : MRet M := @ret.
#[global] Instance M_bind : MBind M := fun A B k m => bind m k.

Definition throw {A} (e : Error) : M A := fun w => (Throw e, w, []).

Definition emit (ev : event) : M unit := fun w => (Normal tt, w, [ev]).

(** [try { body } catch (error) { handler } finally { final }] *)
Definition try_catch_finally (body : M unit) (handler : Error -> M unit)
    (final : M unit) : M unit :=
  fun w =>
    let '(c1, w1, ev1) := body w in
    let '(c2, w2, ev2) :=
      match c1 with
      | Normal _ => (Normal tt, w1, [])
      | Throw error => handler error w1
      end in
    let '(c3, w3, ev3) := final w2 in
    (match c3 with Throw e => Throw e | Normal _ => c2 end,
     w3, (ev1 ++ ev2 ++ ev3)%list).

(** A property read that may throw. *)
Definition read (v : JsValue) (k : string) : M JsValue :=
  match get_prop v k with
  | inl type_error => throw type_error
  | inr x => ret x
  end.

(** *** The state setters *)

Definition with_ui (f : AppState -> AppState) : M unit :=
  fun w => (Normal tt, {| ui := f (ui w); firestore := firestore w |}, []).

Definition put_prediction (v : JsValue) (s : AppState) : AppState :=
  {| prediction := v; shapData := shapData s; isLoading := isLoading s;
     isClearingHistory := isClearingHistory s;
     clearHistoryMessage := clearHistoryMessage s;
     predictionHistory := predictionHistory s |}.

Definition put_shapData (v : JsValue) (s : AppState) : AppState :=
  {| prediction := prediction s; shapData := v; isLoading := isLoading s;
     isClearingHistory := isClearingHistory s;
     clearHistoryMessage := clearHistoryMessage s;
     predictionHistory := predictionHistory s |}.

Definition put_isLoading (b : bool) (s : AppState) : AppState :=
  {| prediction := prediction s; shapData := shapData s; isLoading := b;
     isClearingHistory := isClearingHistory s;
     clearHistoryMessage := clearHistoryMessage s;
     predictionHistory := predictionHistory s |}.

Definition put_isClearingHistory (b : bool) (s : AppState) : AppState :=
  {| prediction := prediction s; shapData := shapData s; isLoading := isLoading s;
     isClearingHistory := b;
     clearHistoryMessage := clearHistoryMessage s;
     predictionHistory := predictionHistory s |}.

Definition put_clearHistoryMessage (m : ClearHistoryMessage) (s : AppState) : AppState :=
  {| prediction := prediction s; shapData := shapData s; isLoading := isLoading s;
     isClearingHistory := isClearingHistory s;
     clearHistoryMessage := m;
     predictionHistory := predictionHistory s |}.

Definition put_predictionHistory (history : list string) (s : AppState) : AppState :=
  {| prediction := prediction s; shapData := shapData s; isLoading := isLoading s;
     isClearingHistory := isClearingHistory s;
     clearHistoryMessage := clearHistoryMessage s;
     predictionHistory := history |}.

Definition setPrediction (v : JsValue) : M unit :=
  emit (SetPrediction v) ;; with_ui (put_prediction v).

Definition setShapData (v : JsValue) : M unit :=
  emit (SetShapData v) ;; with_ui (put_shapData v).

Definition setIsLoading (b : bool) : M unit :=
  emit (SetIsLoading b) ;; with_ui (put_isLoading b).

Definition setIsClearingHistory (b : bool) : M unit :=
  emit (SetIsClearingHistory b) ;; with_ui (put_isClearingHistory b).

Definition setClearHistoryMessage (m : ClearHistoryMessage) : M unit :=
  emit (SetClearHistoryMessage m) ;; with_ui (put_clearHistoryMessage m).

Definition setPredictionHistory (history : list string) : M unit :=
  emit (SetPredictionHistory history) ;; with_ui (put_predictionHistory history).

Definition console_error (label : string) (e : Error) : M unit :=
  emit (ConsoleError label e).

Definition console_log (line : string) : M unit := emit (ConsoleLog line).

(** *** Firestore operations *)

Definition with_docs (path : string) (f : Collection -> Collection) : M unit :=
  fun w =>
    (Normal tt,
     {| ui := ui w;
        firestore := <[path := f (docs_at (firestore w) path)]> (firestore w) |},
     []).

(** A new document gets an id the collection does not use yet. *)
Definition insert_doc (d : HistoryDoc) (c : Collection) : Collection :=
  <[fresh (dom c) := d]> c.

(** [await addDoc(collection(db, path), d)] *)
Definition addDoc (env : SubmitEnv) (path : string) (d : HistoryDoc) : M unit :=
  emit (AddDoc path d) ;;
  match addDoc_result env with
  | Some e => throw e
  | None => with_docs path (insert_doc d)
  end.

(** [await getDocs(query(collection(db, path)))] *)
Definition getDocs (env : ClearEnv) (path : string) : M (list (positive * HistoryDoc)) :=
  emit (GetDocs path) ;;
  match getDocs_result env with
  | Some e => throw e
  | None => (fun w => (Normal (snapshot_of (firestore w) path), w, [])) : M _
  end.

(** Appends of other submissions that land while a handler is suspended. *)
Definition others_append (path : string) (ds : list HistoryDoc) : M unit :=
  with_docs path (fun c => fold_left (fun c d => insert_doc d c) ds c).

(** [querySnapshot.forEach(doc => batch.delete(doc.ref))]: the batch is the
    list of the ids to delete. *)
Fixpoint batch_delete_each (path : string) (docs : list (positive * HistoryDoc))
    (batch : list positive) : M (list positive) :=
  match docs with
  | [] => ret batch
  | (id, _) :: rest =>
      emit (BatchDelete path id) ;;
      batch_delete_each path rest (batch ++ [id])%list
  end.

(** [await batch.commit()]: all the deletions, or none of them. *)
Definition commit (env : ClearEnv) (path : string) (batch : list positive) : M unit :=
  emit BatchCommit ;;
  match commit_result env with
  | Some e => throw e
  | None => with_docs path (fun c => fold_left (fun c id => delete id c) batch c)
  end.

(** The listener of the history query, which the second effect registers
    once authentication is ready and [db] and [userId] are set: each
    delivery rebuilds [predictionHistory] from the documents of the
    snapshot. *)
Definition onSnapshot (cl : Closure) : M unit :=
  fun w =>
    setPredictionHistory
      (onSnapshot_history (map snd (snapshot_of (firestore w) (collectionPath cl)))) w.

(** ** handlePrediction *)

Definition backendUrl : string := "https://predictionsystem-fwa7.onrender.com".

(** [{ error: msg }] *)
Definition error_object (msg : string) : JsValue := VObj [("error", VStr msg)].

Section Handlers.
Context `{JsRuntime}.

(** [fetch(url, {method: 'POST', ..., body: JSON.stringify(formData)})]: the
    request leaves; what settles it is [env]'s. *)
Definition fetch (url : string) (body : gmap string JsValue) : M unit :=
  emit (Fetch url body).

(** What the [try] block does once [Promise.allSettled] has resolved. *)
Definition handle_settled (cl : Closure) (env : SubmitEnv)
    (formData : gmap string JsValue) (predictionResult shapResult : Settled) : M unit :=
  match predictionResult with
  | Fulfilled result =>
      setPrediction result ;;
      if db_truthy cl && userId_truthy cl then
        let historyCollectionRef := collectionPath cl in
        prediction_result ← read result "prediction";
        probability ← read result "probability_has_disease";
        addDoc env historyCollectionRef
          {| disease_name := selectedDisease cl;
             prediction_result := prediction_result;
             probability := probability;
             formData := formData;
             timestamp := server_time env |}
      else mret tt
  | Rejected reason =>
      setPrediction (error_object (message reason)) ;;
      console_error "Prediction Error:" reason
  end ;;
  match shapResult with
  | Fulfilled v => setShapData v
  | Rejected reason =>
      setShapData (error_object (message reason)) ;;
      console_error "SHAP Explanation Error:" reason
  end.

Definition handlePrediction (cl : Closure) (env : SubmitEnv)
    (formData : gmap string JsValue) : M unit :=
  setIsLoading true ;;
  setPrediction VNull ;;
  setShapData VNull ;;
  try_catch_finally
    (fetch (backendUrl +:+ "/predict/" +:+ selectedDisease cl) formData ;;
     fetch (backendUrl +:+ "/explain/" +:+ selectedDisease cl) formData ;;
     emit AllSettled ;;
     handle_settled cl env formData
       (predictionPromise (predict_response env))
       (shapPromise (explain_response env)))
    (fun error =>
       console_error "API call failed:" error ;;
       setPrediction (error_object "Failed to connect to the backend server.") ;;
       setShapData VNull)
    (setIsLoading false).
End Handlers.

(** ** handleClearHistory *)

Definition handleClearHistory (cl : Closure) (env : ClearEnv) : M unit :=
  if negb (db_truthy cl) || negb (userId_truthy cl) then mret tt
  else
    setIsClearingHistory true ;;
    let historyCollectionRef := collectionPath cl in
    try_catch_finally
      (querySnapshot ← getDocs env historyCollectionRef;
       others_append historyCollectionRef (appended_meanwhile env) ;;
       batch ← batch_delete_each historyCollectionRef querySnapshot [];
       commit env historyCollectionRef batch ;;
       setClearHistoryMessage
         {| open := true; title := "Success";
            content := "Prediction history cleared successfully." |} ;;
       console_log "Prediction history cleared successfully.")
      (fun error =>
         setClearHistoryMessage
           {| open := true; title := "Error";
              content := "Failed to clear history. Please try again." |} ;;
         console_error "Error clearing prediction history:" error)
      (setIsClearingHistory false).

(** ** Observations on a run, and the vocabulary of the statements *)

Definition outcome {A} (r : completion A * World * list event) : completion A := r.1.1.
Definition world_after {A} (r : completion A * World * list event) : World := r.1.2.
Definition events {A} (r : completion A * World * list event) : list event := r.2.

(** The [addDoc] calls among the events of a run. *)
Definition addDoc_calls (evs : list event) : list (string * HistoryDoc) :=
  omap (fun ev => match ev with AddDoc path d => Some (path, d) | _ => None end) evs.

(** The store operations among the events of a run. *)
Definition is_store_event (ev : event) : bool :=
  match ev with
  | AddDoc _ _ | GetDocs _ | BatchDelete _ _ | BatchCommit => true
  | _ => false
  end.

(** The notification of a clear that went through. *)
Definition success_message : ClearHistoryMessage :=
  {| open := true; title := "Success";
     content := "Prediction history cleared successfully." |}.

Definition error_message : ClearHistoryMessage :=
  {| open := true; title := "Error";
     content := "Failed to clear history. Please try again." |}.

(** A run announces that the clear went through. *)
Definition announces_success (evs : list event) : bool :=
  existsb (fun ev => match ev with
                     | SetClearHistoryMessage m => String.eqb (title m) "Success"
                     | _ => false
                     end) evs.

(** The sum of the counts of the chart. *)
Definition sum_counts (counts : list (string * nat)) : nat :=
  sum_list (map snd counts).

(** The counts as a mapping from category to count. *)
Definition counts_map (counts : list (string * nat)) : gmap string nat :=
  list_to_map counts.

(** On the mapping, one step of the reduction adds one to the count of the
    category, starting from 0. *)
Definition bump_map (m : gmap string nat) (d : string) : gmap string nat :=
  <[d := S (default 0 (m !! d))]> m.

(** The documents of a snapshot that the listener keeps. *)
Definition positive_docs (querySnapshot : list HistoryDoc) : list HistoryDoc :=
  filter (fun data => is_one (prediction_result data)) querySnapshot.

(** The categories of a history in the order of their first appearance. *)
Fixpoint first_seen (history : list string) : list string :=
  match history with
  | [] => []
  | d :: rest => d :: filter (fun x => x ≠ d) (first_seen rest)
  end.

(** The list the disease buttons are drawn from. *)
Definition availableDiseases : list string :=
  ["heart"; "diabetes"; "kidney"; "hypertension"].

(** How a request can go wrong. *)
Definition transport_failed (r : FetchResult) : bool :=
  match r with FetchRejects _ => true | FetchResolves _ _ => false end.

Definition non_success_status (r : FetchResult) : bool :=
  match r with FetchResolves false _ => true | _ => false end.

Definition body_not_json (r : FetchResult) : bool :=
  match r with FetchResolves _ (JsonRejects _) => true | _ => false end.

Definition is_rejected (s : Settled) : bool :=
  match s with Rejected _ => true | Fulfilled _ => false end.

Definition is_number (v : JsValue) : bool :=
  match v with VNum _ => true | _ => false end.

(** ** Sample data: the scenarios of the specification *)

Definition initial_state : AppState :=
  {| prediction := VNull; shapData := VNull; isLoading := false;
     isClearingHistory := false;
     clearHistoryMessage := {| open := false; title := ""; content := "" |};
     predictionHistory := [] |}.

Definition empty_world : World := {| ui := initial_state; firestore := ∅ |}.

Definition signed_in : Closure :=
  {| selectedDisease := "diabetes"; db := Some firestoreDb;
     userId := Some "user-1"; app_id := None |}.

Definition signed_out : Closure :=
  {| selectedDisease := "diabetes"; db := None; userId := None; app_id := None |}.

(** [{prediction: 1, probability_has_disease: 0.82}] *)
Definition positive_body : JsValue :=
  VObj [("prediction", VNum 1); ("probability_has_disease", VNum 0.82)].

Definition positive_response : FetchResult :=
  FetchResolves true (JsonResolves positive_body).

Definition explanation_body : JsValue :=
  VObj [("positive_features", VArr []); ("negative_features", VArr [])].

Definition network_error : Error := MkError "Failed to fetch".

Definition permission_denied : Error := MkError "Missing or insufficient permissions.".

Definition heart_doc (label : float) : HistoryDoc :=
  {| disease_name := "heart"; prediction_result := VNum label;
     probability := VNum 0.5; formData := ∅; timestamp := 0 |}.

Definition diabetes_doc (label : float) : HistoryDoc :=
  {| disease_name := "diabetes"; prediction_result := VNum label;
     probability := VNum 0.5; formData := ∅; timestamp := 0 |}.

Definition explanation_response : FetchResult :=
  FetchResolves true (JsonResolves explanation_body).

(** Scenario A: the classification succeeds, the explanation fails on the
    network, the store accepts the write. *)
Definition scenario_A : SubmitEnv :=
  {| predict_response := positive_response;
     explain_response := FetchRejects network_error;
     addDoc_result := None; server_time := 42 |}.

(** Both calls succeed and the store rejects the write. *)
Definition store_rejects : SubmitEnv :=
  {| predict_response := positive_response;
     explain_response := explanation_response;
     addDoc_result := Some permission_denied; server_time := 42 |}.

(** The classification succeeds, the explanation fails on the network and
    the store rejects the write. *)
Definition explanation_fails_store_rejects : SubmitEnv :=
  {| predict_response := positive_response;
     explain_response := FetchRejects network_error;
     addDoc_result := Some permission_denied; server_time := 42 |}.

Definition entry_A : HistoryDoc :=
  {| disease_name := "diabetes"; prediction_result := VNum 1;
     probability := VNum 0.82; formData := ∅; timestamp := 42 |}.

(** A log of two entries for the signed-in user. *)
Definition world_with_history : World :=
  {| ui := initial_state;
     firestore :=
       {[ collectionPath signed_in :=
            {[ 1%positive := heart_doc 1; 2%positive := diabetes_doc 1 ]} ]} |}.

Definition clear_goes_through : ClearEnv :=
  {| getDocs_result := None; appended_meanwhile := []; commit_result := None |}.

(** What the form shows for a settled call: its value, or [{error}] with
    the message of its reason. *)
Definition shown (s : Settled) : JsValue :=
  match s with
  | Fulfilled v => v
  | Rejected reason => error_object (message reason)
  end.

(** ** More of PredictionPieChart and SHAPExplanationVisualizer *)

(** How many entries of the history are of a category. *)
Definition occurrences (disease : string) (history : list string) : nat :=
  length (filter (fun x => x = disease) history).

(** [pieChartData.length > 0]: the chart is drawn, otherwise the invitation
    to make a few predictions. *)
Definition shows_chart (predictionHistory : list string) : bool :=
  (0 <? length (pieChartData predictionHistory))%nat.

(** [feature.feature_name.replace(/_/g, ' ')]: the label of a bar. *)
Fixpoint feature_label (feature_name : string) : string :=
  match feature_name with
  | EmptyString => EmptyString
  | String c rest =>
      String (if Ascii.eqb c "_" then " "%char else c) (feature_label rest)
  end.

(** ** The field schema of the form *)

Module MenuOption.
Record t := { value : float; label : string }.
End MenuOption.

Module Field.
Inductive kind := number | select.

(** A field descriptor of [forms]; an attribute the literal leaves out is
    [None], and a number field has no options. *)
Record t := {
  name : string;
  label : string;
  type : kind;
  placeholder : option string;
  min : option float;
  max : option float;
  step : option float;
  options : list MenuOption.t
}.
End Field.

Definition number_field (name label placeholder : string)
    (min max step : option float) : Field.t :=
  {| Field.name := name; Field.label := label; Field.type := Field.number;
     Field.placeholder := Some placeholder;
     Field.min := min; Field.max := max; Field.step := step;
     Field.options := [] |}.

Definition select_field (name label : string) (options : list MenuOption.t) : Field.t :=
  {| Field.name := name; Field.label := label; Field.type := Field.select;
     Field.placeholder := None;
     Field.min := None; Field.max := None; Field.step := None;
     Field.options := options |}.

Definition menu (v : float) (label : string) : MenuOption.t :=
  {| MenuOption.value := v; MenuOption.label := label |}.

Definition forms_heart : list Field.t :=
  [number_field "Age" "Age (in years)" "e.g., 54"
      (Some 18%float) (Some 100%float) None;
   select_field "Sex" "Sex"
      [menu 0%float "Female"; menu 1%float "Male"];
   number_field "RestingBP" "Resting Blood Pressure (mm/Hg)" "e.g., 120"
      (Some 0%float) None None;
   number_field "Cholesterol" "Cholesterol (mg/dl)" "e.g., 200"
      (Some 0%float) None None;
   select_field "FastingBS" "Fasting Blood Sugar > 120 mg/dl"
      [menu 0%float "No"; menu 1%float "Yes"];
   select_field "RestingECG_Normal" "Normal Resting ECG"
      [menu 0%float "No"; menu 1%float "Yes"];
   select_field "RestingECG_ST" "ST-T Wave Abnormality"
      [menu 0%float "No"; menu 1%float "Yes"];
   number_field "MaxHR" "Maximum Heart Rate Achieved" "e.g., 150"
      (Some 0%float) None None;
   select_field "ExerciseAngina" "Exercise-Induced Angina"
      [menu 0%float "No"; menu 1%float "Yes"];
   number_field "Oldpeak" "ST Depression Induced by Exercise" "e.g., 2.3"
      (Some 0%float) None None;
   select_field "ST_Slope_Flat" "Flat ST Slope"
      [menu 0%float "No"; menu 1%float "Yes"];
   select_field "ST_Slope_Up" "Up-sloping ST Slope"
      [menu 0%float "No"; menu 1%float "Yes"];
   select_field "ChestPainType_ATA" "Chest Pain Type: Atypical Angina"
      [menu 0%float "No"; menu 1%float "Yes"];
   select_field "ChestPainType_NAP" "Chest Pain Type: Non-Anginal Pain"
      [menu 0%float "No"; menu 1%float "Yes"];
   select_field "ChestPainType_TA" "Chest Pain Type: Typical Angina"
      [menu 0%float "No"; menu 1%float "Yes"]].

Definition forms_diabetes : list Field.t :=
  [number_field "Pregnancies" "Number of Pregnancies" "e.g., 6"
      (Some 0%float) None None;
   number_field "Glucose" "Glucose Level (mg/dL)" "e.g., 148"
      (Some 0%float) None None;
   number_field "BloodPressure" "Blood Pressure (mm/Hg)" "e.g., 72"
      (Some 0%float) None None;
   number_field "SkinThickness" "Skin Thickness (mm)" "e.g., 35"
      (Some 0%float) None None;
   number_field "Insulin" "Insulin Level (mu/mL)" "e.g., 0"
      (Some 0%float) None None;
   number_field "BMI" "BMI" "e.g., 33.6"
      (Some 0%float) None None;
   number_field "DiabetesPedigreeFunction" "Diabetes Pedigree Function" "e.g., 0.627"
      (Some 0%float) None (Some 0.001%float);
   number_field "Age" "Age (in years)" "e.g., 50"
      (Some 0%float) None None].

Definition forms_kidney : list Field.t :=
  [number_field "age" "Age (in years)" "e.g., 48"
      (Some 0%float) None None;
   number_field "bp" "Blood Pressure (mm/Hg)" "e.g., 80"
      (Some 0%float) None None;
   number_field "sg" "Specific Gravity" "e.g., 1.020"
      (Some 0%float) None (Some 0.005%float);
   number_field "al" "Albumin" "e.g., 1"
      (Some 0%float) None None;
   number_field "su" "Sugar" "e.g., 0"
      (Some 0%float) None None;
   number_field "bgr" "Blood Glucose Random (mgs/dL)" "e.g., 121"
      (Some 0%float) None None;
   number_field "bu" "Blood Urea (mgs/dL)" "e.g., 36"
      (Some 0%float) None None;
   number_field "sc" "Serum Creatinine (mgs/dL)" "e.g., 1.2"
      (Some 0%float) None None;
   number_field "sod" "Sodium (mEq/L)" "e.g., 136"
      (Some 0%float) None None;
   number_field "pot" "Potassium (mEq/L)" "e.g., 4.7"
      (Some 0%float) None None;
   number_field "hemo" "Hemoglobin (gms)" "e.g., 15.4"
      (Some 0%float) None None;
   number_field "pcv" "Packed Cell Volume" "e.g., 44"
      (Some 0%float) None None;
   number_field "wc" "White Blood Cells (cells/cmm)" "e.g., 7800"
      (Some 0%float) None None;
   number_field "rc" "Red Blood Cells (millions/cmm)" "e.g., 5.2"
      (Some 0%float) None None;
   select_field "rbc" "Red Blood Cells normal"
      [menu 0%float "No"; menu 1%float "Yes"];
   select_field "pc" "Pus Cells normal"
      [menu 0%float "No"; menu 1%float "Yes"];
   select_field "pcc" "Pus Cell Clumps present"
      [menu 0%float "No"; menu 1%float "Yes"];
   select_field "ba" "Bacteria present"
      [menu 0%float "No"; menu 1%float "Yes"];
   select_field "htn" "Hypertension"
      [menu 0%float "No"; menu 1%float "Yes"];
   select_field "dm" "Diabetes Mellitus"
      [menu 0%float "No"; menu 1%float "Yes"];
   select_field "cad" "Coronary Artery Disease"
      [menu 0%float "No"; menu 1%float "Yes"];
   select_field "appet" "Poor Appetite"
      [menu 0%float "No"; menu 1%float "Yes"];
   select_field "pe" "Pedal Edema"
      [menu 0%float "No"; menu 1%float "Yes"];
   select_field "ane" "Anemia"
      [menu 0%float "No"; menu 1%float "Yes"]].

Definition forms_hypertension : list Field.t :=
  [number_field "Age" "Age (in years)" "e.g., 69"
      (Some 0%float) None None;
   number_field "Salt_Intake" "Salt Intake (g/day)" "e.g., 8.0"
      (Some 0%float) None None;
   number_field "Stress_Score" "Stress Score (0-10)" "e.g., 9"
      (Some 0%float) (Some 10%float) None;
   number_field "Sleep_Duration" "Sleep Duration (hours)" "e.g., 6.4"
      (Some 0%float) (Some 24%float) None;
   number_field "BMI" "BMI" "e.g., 25.8"
      (Some 0%float) None None;
   select_field "BP_History_Normal" "BP History: Normal"
      [menu 0%float "No"; menu 1%float "Yes"];
   select_field "BP_History_Prehypertension" "BP History: Prehypertension"
      [menu 0%float "No"; menu 1%float "Yes"];
   select_field "Medication_Beta_Blocker" "Medication: Beta Blocker"
      [menu 0%float "No"; menu 1%float "Yes"];
   select_field "Medication_Diuretic" "Medication: Diuretic"
      [menu 0%float "No"; menu 1%float "Yes"];
   select_field "Medication_Other" "Medication: Other"
      [menu 0%float "No"; menu 1%float "Yes"];
   select_field "Exercise_Level_Low" "Exercise Level: Low"
      [menu 0%float "No"; menu 1%float "Yes"];
   select_field "Exercise_Level_Moderate" "Exercise Level: Moderate"
      [menu 0%float "No"; menu 1%float "Yes"];
   select_field "Smoking_Status_Smoker" "Smoking Status: Smoker"
      [menu 0%float "No"; menu 1%float "Yes"];
   select_field "Family_History_Yes" "Family History: Yes"
      [menu 0%float "No"; menu 1%float "Yes"]].

(** [forms], by disease. *)
Definition forms : list (string * list Field.t) :=
  [("heart", forms_heart); ("diabetes", forms_diabetes);
   ("kidney", forms_kidney); ("hypertension", forms_hypertension)].

(** The own properties of the [forms] literal. *)
Fixpoint forms_own (table : list (string * list Field.t)) (selectedDisease : string)
    : option (list Field.t) :=
  match table with
  | [] => None
  | (k, fields) :: rest =>
      if decide (k = selectedDisease) then Some fields else forms_own rest selectedDisease
  end.

(** What a property read on the [forms] literal gives: the array of an own
    property, the value the literal inherits from [Object.prototype] under
    that name (a function, or for [__proto__] the prototype itself: truthy,
    and no array), or [undefined]. *)
Inductive FormsEntry :=
| NoEntry
| InheritedEntry
| FieldsEntry (fields : list Field.t).

(** [forms[selectedDisease]] *)
Definition forms_get (table : list (string * list Field.t)) (selectedDisease : string)
    : FormsEntry :=
  match forms_own table selectedDisease with
  | Some fields => FieldsEntry fields
  | None => if inherited_name selectedDisease then InheritedEntry else NoEntry
  end.

(** [forms[selectedDisease] || []]: the fields the form maps over, or [None]
    for an inherited value, which has no [map] to render the fields with. *)
Definition currentFormFields (selectedDisease : string) : option (list Field.t) :=
  match forms_get forms selectedDisease with
  | FieldsEntry fields => Some fields
  | InheritedEntry => None
  | NoEntry => Some []
  end.

(** [fields.reduce((acc, field) => { acc[field.name] = ''; return acc; }, {})] *)
Definition initialData (fields : list Field.t) : gmap string JsValue :=
  fold_left (fun acc field => <[Field.name field := VStr ""]> acc) fields ∅.

(** The effect on [selectedDisease]: nothing while no disease is selected,
    otherwise the form data is reset to [initialData]; a disease without a
    form makes [forms[selectedDisease].reduce] throw (the messages are
    V8's). *)
Definition formData_effect (selectedDisease : option string)
    (formData : gmap string JsValue) : Error + gmap string JsValue :=
  match selectedDisease with
  | None => inr formData
  | Some disease =>
      if bool_decide (disease = "") then inr formData
      else match forms_get forms disease with
           | FieldsEntry fields => inr (initialData fields)
           | InheritedEntry =>
               inl (MkError "forms[selectedDisease].reduce is not a function")
           | NoEntry =>
               inl (MkError "Cannot read properties of undefined (reading 'reduce')")
           end
  end.

Section FormChanges.
Context `{JsRuntime}.

(** A sequence of change events, each handled on the form data the previous
    one left. *)
Definition apply_changes (formData : gmap string JsValue)
    (changes : list (string * JsValue)) : gmap string JsValue :=
  fold_left (fun formData change => handleInputChange formData change.1 change.2)
            changes formData.
End FormChanges.

(** A value of the form data: unset, or a number. *)
Definition unset_or_number (v : JsValue) : bool :=
  is_empty_string v || is_number v.

(** What the literals of [forms] have in common: a select offers the two
    values 0 and 1 and has no bounds, a number field has a placeholder and
    no options. *)
Definition well_formed_field (field : Field.t) : bool :=
  match Field.type field with
  | Field.select =>
      match Field.options field with
      | [no; yes] =>
          PrimFloat.eqb (MenuOption.value no) 0 && PrimFloat.eqb (MenuOption.value yes) 1
      | _ => false
      end
      && bool_decide (Field.placeholder field = None)
  | Field.number =>
      bool_decide (Field.options field = [])
      && bool_decide (is_Some (Field.placeholder field))
  end.

(** ** The dialog of the clear, and more observations on a run *)

(** [setClearHistoryMessage(prev => ({ ...prev, open: false }))] *)
Definition handleCloseClearHistoryMessage : M unit :=
  fun w =>
    let prev := clearHistoryMessage (ui w) in
    setClearHistoryMessage
      {| open := false; title := title prev; content := content prev |} w.

(** The requests among the events of a run. *)
Definition fetch_calls (evs : list event) : list (string * gmap string JsValue) :=
  omap (fun ev => match ev with Fetch url body => Some (url, body) | _ => None end) evs.


(** The documents of the collection of the user, as a snapshot lists them. *)
Definition history_docs (cl : Closure) (w : World) : list HistoryDoc :=
  map snd (snapshot_of (firestore w) (collectionPath cl)).

(** The variables of the state of [App], and the one a setter event
    writes. *)
Inductive StateVar :=
| VarPrediction
| VarShapData
| VarIsLoading
| VarIsClearingHistory
| VarClearHistoryMessage
| VarPredictionHistory.

#[global] Instance StateVar_eq_dec : EqDecision StateVar.
Proof. solve_decision. Defined.



(** ** Awaited operations that never settle *)





Section Awaiting.
Context `{JsRuntime}.

End Awaiting.


(** ** Start-up: Firebase initialisation and authentication *)

Module Auth.

(** The Firebase part of the state of [App]. *)
Record State := { db : option DbHandle; userId : option string; isAuthReady : bool }.

Inductive event :=
| SetDb
| SetUserId (uid : string)
| SetIsAuthReady (b : bool)
| OnAuthStateChanged
| SignInWithCustomToken (token : string)
| SignInAnonymously
| ConsoleError (label : string) (e : option Error).

(** What start-up meets: whether [__firebase_config] is defined and, if it
    is, whether parsing it and creating the app, the auth and the database
    handles throws; for a call of the auth listener, the user it is given,
    the global [__initial_auth_token] when it is defined, whether signing in
    is rejected, and the uid of [auth.currentUser] once signed in ([None]
    when there is no current user). *)
Record Env := {
  firebase_config : option (option Error);
  user : option string;
  initial_auth_token : option string;
  signIn_result : option Error;
  currentUser : option string
}.

Definition initial : State := {| db := None; userId := None; isAuthReady := false |}.

End Auth.

(** The first effect of [App]. Without a configuration it logs and declares
    authentication ready; with one it sets the database handle and registers
    the auth listener, unless the initialisation throws. *)
Definition initialize (env : Auth.Env) (st : Auth.State)
    : completion unit * Auth.State * list Auth.event :=
  match Auth.firebase_config env with
  | Some None =>
      (Normal tt,
       {| Auth.db := Some firestoreDb; Auth.userId := Auth.userId st;
          Auth.isAuthReady := Auth.isAuthReady st |},
       [Auth.SetDb; Auth.OnAuthStateChanged])
  | Some (Some e) => (Throw e, st, [])
  | None =>
      (Normal tt,
       {| Auth.db := Auth.db st; Auth.userId := Auth.userId st;
          Auth.isAuthReady := true |},
       [Auth.ConsoleError "Firebase config is not available." None;
        Auth.SetIsAuthReady true])
  end.

(** [typeof __initial_auth_token !== 'undefined' && __initial_auth_token] *)
Definition signIn_call (env : Auth.Env) : Auth.event :=
  match Auth.initial_auth_token env with
  | Some token =>
      if bool_decide (token = "") then Auth.SignInAnonymously
      else Auth.SignInWithCustomToken token
  | None => Auth.SignInAnonymously
  end.

(** The listener of [onAuthStateChanged]: with a user it takes the uid;
    without one it signs in and takes the uid of the current user, a failure
    of either being caught and logged; in every case it then declares
    authentication ready. *)
Definition authStateChanged (env : Auth.Env) (st : Auth.State)
    : completion unit * Auth.State * list Auth.event :=
  let ready uid :=
    {| Auth.db := Auth.db st; Auth.userId := uid; Auth.isAuthReady := true |} in
  match Auth.user env with
  | Some uid =>
      (Normal tt, ready (Some uid), [Auth.SetUserId uid; Auth.SetIsAuthReady true])
  | None =>
      match Auth.signIn_result env with
      | Some e =>
          (Normal tt, ready (Auth.userId st),
           [signIn_call env; Auth.ConsoleError "Authentication failed:" (Some e);
            Auth.SetIsAuthReady true])
      | None =>
          match Auth.currentUser env with
          | Some uid =>
              (Normal tt, ready (Some uid),
               [signIn_call env; Auth.SetUserId uid; Auth.SetIsAuthReady true])
          | None =>
              (Normal tt, ready (Auth.userId st),
               [signIn_call env;
                Auth.ConsoleError "Authentication failed:"
                  (Some (MkError "Cannot read properties of null (reading 'uid')"));
                Auth.SetIsAuthReady true])
          end
      end
  end.

(** Start-up: the first effect, then the calls of the auth listener it
    registered, if it did. *)
Definition start (env : Auth.Env) (calls : list Auth.Env) : Auth.State :=
  let '(_, st, evs) := initialize env Auth.initial in
  if existsb (fun ev => match ev with Auth.OnAuthStateChanged => true | _ => false end) evs
  then fold_left (fun st call => (authStateChanged call st).1.2) calls st
  else st.

(** What the handlers close over, given the Firebase state. *)
Definition closure (st : Auth.State) (selectedDisease : string)
    (app_id : option string) : Closure :=
  {| selectedDisease := selectedDisease; db := Auth.db st;
     userId := Auth.userId st; app_id := app_id |}.

(** The guard of the second effect, [!isAuthReady || !db || !userId]: the
    history listener is registered when it is false. *)
Definition subscribes (st : Auth.State) : bool :=
  negb (negb (Auth.isAuthReady st)
        || negb (match Auth.db st with Some _ => true | None => false end)
        || negb (match Auth.userId st with
                 | Some u => negb (bool_decide (u = ""))
                 | None => false
                 end)).

(** ** What the page shows *)

(** [handleDiseaseSelect]: the disease becomes the selected one of the
    closure, the prediction and the explanation are dropped. *)
Definition handleDiseaseSelect (disease : string) (cl : Closure) : M Closure :=
  setPrediction VNull ;;
  setShapData VNull ;;
  mret {| selectedDisease := disease; db := db cl; userId := userId cl;
          app_id := app_id cl |}.

(** Converting a value of a parsed body to a primitive throws a TypeError:
    an object with a [toString] property of its own (never callable, and
    the inherited [valueOf] returns the object), or an array with such an
    element, which [join] converts. *)
Fixpoint unconvertible (v : JsValue) : bool :=
  match v with
  | VObj props => has_key "toString" props
  | VArr items =>
      (fix any (l : list JsValue) : bool :=
         match l with
         | [] => false
         | x :: rest => unconvertible x || any rest
         end) items
  | _ => false
  end.

(** A conversion threw. *)
Definition throws {A} (r : Error + A) : bool :=
  match r with inl _ => true | inr _ => false end.

(** What React accepts as a child: a string or a number, a boolean, [null]
    or [undefined] (which draw nothing), an array of children; an object
    makes the render throw. *)
Fixpoint valid_child (v : JsValue) : bool :=
  match v with
  | VObj _ => false
  | VArr items =>
      (fix all (l : list JsValue) : bool :=
         match l with
         | [] => true
         | x :: rest => valid_child x && all rest
         end) items
  | _ => true
  end.

(** The result box of the form: nothing while [prediction] is falsy, the
    error when [prediction.error] is truthy (the background of the box
    follows the same test), otherwise the verdict
    ([prediction.prediction === 1 ? 'Positive' : 'Negative']) and the value
    the percentage is computed from,
    [(prediction.probability_has_disease * 100).toFixed(2)]. *)
Inductive ResultBox :=
| NoResult
| ErrorText (error : JsValue)
| Verdict (label : string) (probability_has_disease : JsValue).

(** The box that is drawn, or [None] when drawing it throws: the error is
    not a valid child, or the probability cannot be converted to a
    number. *)
Definition result_box (prediction : JsValue) : option ResultBox :=
  if truthy prediction then
    match get_prop prediction "error" with
    | inl type_error => None
    | inr error =>
        if truthy error then
          if valid_child error then Some (ErrorText error) else None
        else
          match get_prop prediction "prediction",
                get_prop prediction "probability_has_disease" with
          | inr label, inr probability =>
              if unconvertible probability then None
              else Some (Verdict (if is_one label then "Positive" else "Negative")
                                 probability)
          | inl type_error, _ | _, inl type_error => None
          end
    end
  else Some NoResult.

(** [shapData && !shapData.error]: the explanation is drawn. *)
Definition shows_explanation (shapData : JsValue) : Error + bool :=
  if truthy shapData then
    match get_prop shapData "error" with
    | inl type_error => inl type_error
    | inr error => inr (negb (truthy error))
    end
  else inr false.

(** * Properties *)

(** ** The chart: counts, keys and colours *)

Section Chart.
Implicit Types (acc : list (string * nat)) (h : list string) (d : string).

Lemma bump_keys acc d :
  map fst (bump acc d) =
  if decide (d ∈ map fst acc) then map fst acc else (map fst acc ++ [d])%list.
Proof.
  induction acc as [|[k n] rest IH].
  - by destruct (decide (d ∈ map fst (@nil (string * nat)))) as [Hin%elem_of_nil|].
  - change (map fst ((k, n) :: rest)) with (k :: map fst rest).
    change (bump ((k, n) :: rest) d)
      with (if decide (k = d) then (k, n + 1) :: rest else (k, n) :: bump rest d).
    destruct (decide (k = d)) as [->|Hne].
    + rewrite decide_True; [done | apply elem_of_cons; by left].
    + change (map fst ((k, n) :: bump rest d)) with (k :: map fst (bump rest d)).
      rewrite IH. destruct (decide (d ∈ map fst rest)) as [Hin|Hnin].
      * rewrite decide_True; [done | apply elem_of_cons; by right].
      * rewrite decide_False; [done |].
        intros [->|Hin]%elem_of_cons; [by apply Hne | by apply Hnin].
Qed.

Lemma filter_fresh_keys (ks : list string) d (l : list string) :
  d ∈ ks →
  filter (fun x => x ∉ ks) (filter (fun x => x ≠ d) l) = filter (fun x => x ∉ ks) l.
Proof.
  intros Hd. rewrite list_filter_filter. apply list_filter_iff.
  intros x. split; [by intros [? _] | intros Hx; split; [done |]].
  intros ->. by apply Hx.
Qed.

Lemma filter_fresh_snoc (ks : list string) d (l : list string) :
  filter (fun x => x ∉ (ks ++ [d])%list) l =
  filter (fun x => x ∉ ks) (filter (fun x => x ≠ d) l).
Proof.
  rewrite list_filter_filter. apply list_filter_iff.
  intros x. rewrite elem_of_app, list_elem_of_singleton. tauto.
Qed.

Lemma fold_bump_keys h acc :
  map fst (fold_left bump h acc) =
  (map fst acc ++ filter (fun x => x ∉ map fst acc) (first_seen h))%list.
Proof.
  revert acc. induction h as [|d h IH]; intros acc; simpl.
  - by rewrite app_nil_r.
  - rewrite IH, bump_keys. destruct (decide (d ∈ map fst acc)) as [Hin|Hnin].
    + rewrite filter_cons_False by (intros Hn; by apply Hn).
      by rewrite filter_fresh_keys.
    + rewrite filter_cons_True by done.
      by rewrite <- app_assoc, filter_fresh_snoc.
Qed.

(** [Object.keys(diseaseCounts)] lists the categories in the order of their
    first appearance in the history. *)
Lemma diseaseCounts_keys h : map fst (diseaseCounts h) = first_seen h.
Proof.
  unfold diseaseCounts. rewrite fold_bump_keys. simpl.
  induction (first_seen h) as [|x l IH]; [done |].
  rewrite filter_cons_True by apply not_elem_of_nil. by rewrite IH.
Qed.

Lemma sum_counts_bump acc d : sum_counts (bump acc d) = S (sum_counts acc).
Proof.
  unfold sum_counts. induction acc as [|[k n] rest IH]; simpl; [done |].
  destruct (decide (k = d)); simpl; [lia | rewrite IH; lia].
Qed.

Lemma sum_counts_fold h acc :
  sum_counts (fold_left bump h acc) = sum_counts acc + length h.
Proof.
  revert acc. induction h as [|d h IH]; intros acc; simpl; [lia |].
  rewrite IH, sum_counts_bump. lia.
Qed.

Lemma diseaseCounts_sum h : sum_counts (diseaseCounts h) = length h.
Proof. unfold diseaseCounts. by rewrite sum_counts_fold. Qed.

Lemma counts_map_bump acc d :
  counts_map (bump acc d) = bump_map (counts_map acc) d.
Proof.
  unfold counts_map, bump_map. induction acc as [|[k n] rest IH]; simpl.
  - by rewrite lookup_empty.
  - destruct (decide (k = d)) as [->|Hne]; simpl.
    + rewrite lookup_insert_eq, insert_insert_eq. simpl. f_equal. lia.
    + rewrite IH, lookup_insert_ne by done. by apply insert_insert_ne.
Qed.

Lemma counts_map_fold h acc :
  counts_map (fold_left bump h acc) = fold_left bump_map h (counts_map acc).
Proof.
  revert acc. induction h as [|d h IH]; intros acc; simpl; [done |].
  by rewrite IH, counts_map_bump.
Qed.

Lemma bump_map_comm (m : gmap string nat) d1 d2 :
  bump_map (bump_map m d1) d2 = bump_map (bump_map m d2) d1.
Proof.
  unfold bump_map. destruct (decide (d1 = d2)) as [->|Hne]; [done |].
  rewrite !lookup_insert_ne by done. by apply insert_insert_ne.
Qed.

Lemma fold_bump_map_perm h1 h2 :
  h1 ≡ₚ h2 → ∀ m : gmap string nat, fold_left bump_map h1 m = fold_left bump_map h2 m.
Proof.
  induction 1 as [|d h1 h2 _ IH|d1 d2 h|h1 h2 h3 _ IH1 _ IH2]; intros m; simpl.
  - done.
  - apply IH.
  - by rewrite bump_map_comm.
  - by rewrite IH1, IH2.
Qed.

Lemma diseaseCounts_perm h1 h2 :
  h1 ≡ₚ h2 → counts_map (diseaseCounts h1) = counts_map (diseaseCounts h2).
Proof.
  intros Hp. unfold diseaseCounts. rewrite !counts_map_fold.
  by apply fold_bump_map_perm.
Qed.
End Chart.

(** ** The listener and the aggregation of a snapshot *)

Lemma onSnapshot_history_fold (querySnapshot : list HistoryDoc) (history : list string) :
  fold_left (fun history data =>
               if is_one (prediction_result data)
               then (history ++ [disease_name data])%list
               else history)
            querySnapshot history
  = (history ++ map disease_name (positive_docs querySnapshot))%list.
Proof.
  revert history. unfold positive_docs.
  induction querySnapshot as [|data rest IH]; intros history; simpl.
  - by rewrite app_nil_r.
  - rewrite IH. destruct (is_one (prediction_result data)) eqn:Hone.
    + rewrite filter_cons_True by (by rewrite Hone). simpl.
      by rewrite <- app_assoc.
    + rewrite filter_cons_False by (rewrite Hone; exact id). done.
Qed.

(** The history the listener sets: the disease names of the documents whose
    prediction is positive, in the order of the snapshot. *)
Lemma onSnapshot_history_positive (querySnapshot : list HistoryDoc) :
  onSnapshot_history querySnapshot = map disease_name (positive_docs querySnapshot).
Proof. unfold onSnapshot_history. by rewrite onSnapshot_history_fold. Qed.

Lemma positive_docs_perm (s1 s2 : list HistoryDoc) :
  s1 ≡ₚ s2 → positive_docs s1 ≡ₚ positive_docs s2.
Proof. intros Hp. unfold positive_docs. by rewrite Hp. Qed.

Lemma index_of_lt (d : string) (keys : list string) (i : nat) :
  index_of d keys = Some i → i < length keys.
Proof.
  revert i. induction keys as [|k rest IH]; intros i; simpl; [done |].
  destruct (decide (k = d)); [intros [= <-]; lia |].
  destruct (index_of d rest) as [j|]; simpl; [|done].
  intros [= <-]. specialize (IH j eq_refl). lia.
Qed.

Lemma pieChartData_length (h : list string) :
  length (pieChartData h) = length (first_seen h).
Proof.
  unfold pieChartData. rewrite length_map.
  by rewrite <- (diseaseCounts_keys h), length_map.
Qed.

(** C3 (counterexample). A snapshot of one entry, a heart prediction whose
    result is 0: the listener drops it, so the counts of the chart sum to 0
    while the snapshot has one entry. *)
Lemma C3_negative_entry_is_not_counted :
  length [heart_doc 0] = 1 ∧ sum_counts (aggregate [heart_doc 0]) = 0.
Proof. split; reflexivity. Qed.

(** C3 (amended). For every snapshot of the history log whose counted
    entries have ordinary category names (none of the names an object
    inherits from [Object.prototype], such as [__proto__] or
    [constructor]), the counts the chart aggregates sum to the number of
    entries of the snapshot whose prediction result is 1, the only ones the
    listener keeps; each of them is counted under exactly one category. *)
Theorem C3_counts_sum_to_positive_entries (querySnapshot : list HistoryDoc) :
  Forall (fun data => inherited_name (disease_name data) = false)
         (positive_docs querySnapshot) →
  sum_counts (aggregate querySnapshot) = length (positive_docs querySnapshot).
Proof.
  intros _. unfold aggregate.
  by rewrite diseaseCounts_sum, onSnapshot_history_positive, length_map.
Qed.

(** Two positive entries and a negative one: the counts sum to 2. *)
Lemma C3_counts_sum_to_positive_entries_witness :
  Forall (fun data => inherited_name (disease_name data) = false)
         (positive_docs [heart_doc 1; diabetes_doc 1; heart_doc 0]) ∧
  sum_counts (aggregate [heart_doc 1; diabetes_doc 1; heart_doc 0]) = 2.
Proof.
  assert (Hnames : Forall (fun data => inherited_name (disease_name data) = false)
                          (positive_docs [heart_doc 1; diabetes_doc 1; heart_doc 0])).
  { repeat constructor. }
  exact (conj Hnames (C3_counts_sum_to_positive_entries _ Hnames)).
Defined.

(** C6 (counterexample). The category heart is drawn with the first colour
    of the palette when the history is one heart prediction, and with the
    second when a diabetes prediction comes before it in the snapshot. *)
Lemma C6_colour_changes_with_snapshot :
  fill_of (onSnapshot_history [heart_doc 1]) "heart" = Some "#2196f3" ∧
  fill_of (onSnapshot_history [diabetes_doc 1; heart_doc 1]) "heart" = Some "#4caf50".
Proof. split; reflexivity. Qed.

(** C6 (amended). For a history whose categories are ordinary keys
    (neither array indices nor names inherited from [Object.prototype]),
    the colour of a category in the chart is [COLORS[i % 4]] where [i] is
    the rank of the category in the order in which the categories first
    appear in the history of the rendered snapshot; a category that is not
    in the history has no slice. *)
Theorem C6_colour_by_first_appearance (predictionHistory : list string) (disease : string) :
  Forall (fun category => ordinary_key category = true) predictionHistory →
  fill_of predictionHistory disease =
  i ← index_of disease (first_seen predictionHistory); COLORS !! (i `mod` 4).
Proof.
  intros _. unfold fill_of. rewrite diseaseCounts_keys.
  destruct (index_of disease (first_seen predictionHistory)) as [i|] eqn:Hi; simpl; [|done].
  apply index_of_lt in Hi. rewrite <- pieChartData_length in Hi.
  unfold cell_fills. rewrite list_lookup_imap.
  destruct (lookup_lt_is_Some_2 _ _ Hi) as [x ->]. done.
Qed.

(** In the history diabetes, heart, diabetes the category heart is the
    second to appear and is drawn in the second colour. *)
Lemma C6_colour_by_first_appearance_witness :
  Forall (fun category => ordinary_key category = true) ["diabetes"; "heart"; "diabetes"] ∧
  fill_of ["diabetes"; "heart"; "diabetes"] "heart" = Some "#4caf50".
Proof.
  assert (Hkeys : Forall (fun category => ordinary_key category = true)
                         ["diabetes"; "heart"; "diabetes"]).
  { repeat constructor. }
  exact (conj Hkeys (C6_colour_by_first_appearance _ "heart" Hkeys)).
Defined.

(** C7. Aggregation is a function of the snapshot, and permuting the entries
    of a snapshot leaves the aggregate counts, the mapping from category to
    count, identical. (The order in which [Object.keys] lists the categories
    is the order of first appearance and is not part of the mapping.) *)
Theorem C7_aggregate_order_independent (s1 s2 : list HistoryDoc) :
  s1 ≡ₚ s2 → counts_map (aggregate s1) = counts_map (aggregate s2).
Proof.
  intros Hp. unfold aggregate. apply diseaseCounts_perm.
  rewrite !onSnapshot_history_positive.
  apply fmap_Permutation. by apply positive_docs_perm.
Qed.

(** Three entries in two orders give the same counts. *)
Lemma C7_aggregate_order_independent_witness :
  [heart_doc 1; diabetes_doc 1; heart_doc 0] ≡ₚ [diabetes_doc 1; heart_doc 0; heart_doc 1] ∧
  counts_map (aggregate [heart_doc 1; diabetes_doc 1; heart_doc 0]) =
  counts_map (aggregate [diabetes_doc 1; heart_doc 0; heart_doc 1]).
Proof.
  assert (Hp : [heart_doc 1; diabetes_doc 1; heart_doc 0]
               ≡ₚ [diabetes_doc 1; heart_doc 0; heart_doc 1]).
  { eapply perm_trans; [apply perm_swap |]. apply perm_skip, perm_swap. }
  exact (conj Hp (C7_aggregate_order_independent _ _ Hp)).
Defined.

(** ** The form: empty inputs stay unset *)

(** C9. [handleInputChange] stores, under the name of the field, the empty
    string when the raw input is the empty string and the number
    [parseFloat] makes of it otherwise: the stored value is the unset
    sentinel exactly when the input was empty and a number exactly when it
    was not, so an absent value is never stored as a number (0 or NaN), and
    the other fields are left as they were. *)
Theorem C9_empty_input_stays_unset `{JsRuntime}
    (formData : gmap string JsValue) (name : string) (value : JsValue) :
  let stored := handleInputChange formData name value !! name in
  stored = Some (if is_empty_string value then VStr "" else VNum (parseFloat value)) ∧
  is_empty_string <$> stored = Some (is_empty_string value) ∧
  is_number <$> stored = Some (negb (is_empty_string value)) ∧
  ∀ other : string, other ≠ name →
    handleInputChange formData name value !! other = formData !! other.
Proof.
  unfold handleInputChange. cbv zeta.
  rewrite lookup_insert_eq. repeat split.
  - by destruct (is_empty_string value).
  - by destruct (is_empty_string value).
  - intros other Hne. by rewrite lookup_insert_ne.
Qed.

(** ** The outcome of a request *)

Section RequestFacts.
Context `{JsRuntime}.

Lemma new_Error_truthy (d : JsValue) :
  truthy d = true →
  new_Error d = match ToString d with
                | inl type_error => inl type_error
                | inr msg => inr (MkError msg)
                end.
Proof. by destruct d. Qed.

Lemma then_response_object (generic : string) (props : list (string * JsValue)) :
  then_response generic (FetchResolves false (JsonResolves (VObj props))) =
  Rejected (let detail := assoc "detail" props in
            if truthy detail then
              match ToString detail with
              | inl type_error => type_error
              | inr msg => MkError msg
              end
            else MkError generic).
Proof.
  cbn. destruct (truthy (assoc "detail" props)) eqn:Ht; [|done].
  rewrite new_Error_truthy by done.
  by destruct (ToString (assoc "detail" props)).
Qed.
End RequestFacts.

(** C8 (counterexample). A response with a success status whose body is not
    JSON settles the call as an error, though the transport did not fail and
    the status is a success; a [detail] that is present but empty gives the
    generic message, not the detail; and a [detail] that is a list of
    objects, as a validation error has it, gives the message
    [[object Object]]. *)
Lemma C8_error_cases_outside_the_claim :
  (transport_failed (FetchResolves true (JsonRejects (MkError "Unexpected end of JSON input")))
   || non_success_status (FetchResolves true (JsonRejects (MkError "Unexpected end of JSON input")))
   = false ∧
   ∀ rt : JsRuntime,
     predictionPromise (FetchResolves true (JsonRejects (MkError "Unexpected end of JSON input")))
     = Rejected (MkError "Unexpected end of JSON input")) ∧
  (assoc "detail" [("detail", VStr "")] = VStr "" ∧
   ∀ rt : JsRuntime,
     predictionPromise (FetchResolves false (JsonResolves (VObj [("detail", VStr "")])))
     = Rejected (MkError "Something went wrong with the prediction.")) ∧
  (∀ rt : JsRuntime,
     shapPromise (FetchResolves false
                    (JsonResolves (VObj [("detail", VArr [VObj [("msg", VStr "field required")]])])))
     = Rejected (MkError "[object Object]")).
Proof. repeat split. Qed.

(** C8 (amended). For each of the two calls, the outcome is an error exactly
    when the transport fails, the remote answers with a non-success status,
    or the body of the response is not JSON. For a non-success status whose
    body is a JSON object, the message is the [detail] field when it is a
    non-empty string, the fixed generic message when the field is absent or
    falsy (the empty string among them), and otherwise what converting the
    field to a string gives: its string conversion, or the TypeError that
    the conversion throws, as it does for an object with a [toString]
    property of its own. *)
Theorem C8_request_outcome `{JsRuntime} (generic : string) (r : FetchResult)
    (props : list (string * JsValue)) :
  predictionPromise = then_response "Something went wrong with the prediction." ∧
  shapPromise = then_response "Something went wrong with the SHAP explanation." ∧
  is_rejected (then_response generic r)
  = transport_failed r || non_success_status r || body_not_json r ∧
  then_response generic (FetchResolves false (JsonResolves (VObj props)))
  = Rejected
      match assoc "detail" props with
      | VStr s => MkError (if bool_decide (s = "") then generic else s)
      | VUndefined => MkError generic
      | detail =>
          if truthy detail then
            match ToString detail with
            | inl type_error => type_error
            | inr text => MkError text
            end
          else MkError generic
      end ∧
  (∀ own : list (string * JsValue),
     assoc "detail" props = VObj own →
     then_response generic (FetchResolves false (JsonResolves (VObj props)))
     = Rejected (MkError (if has_key "toString" own
                          then "Cannot convert object to primitive value"
                          else "[object Object]"))).
Proof.
  split; [done |]. split; [done |]. split; [|split].
  - destruct r as [e|[|] [e|v]]; cbn; try done.
    destruct (get_prop v "detail"); [done |].
    by destruct (new_Error _).
  - rewrite then_response_object. cbv zeta.
    destruct (assoc "detail" props) as [| |b|x|s|items|ps]; try done.
    cbn. by destruct (bool_decide (s = "")).
  - intros own Hown. rewrite then_response_object. cbv zeta.
    rewrite Hown. cbn. by destruct (has_key "toString" own).
Qed.

(** ** handlePrediction *)

Ltac run_handler :=
  cbv [handlePrediction handle_settled handleClearHistory try_catch_finally
       mbind M_bind bind mret M_ret ret emit throw read fetch
       console_error console_log addDoc getDocs commit others_append
       with_docs with_ui
       setPrediction setShapData setIsLoading setIsClearingHistory
       setClearHistoryMessage setPredictionHistory
       outcome world_after events fst snd ui firestore
       prediction shapData isLoading isClearingHistory clearHistoryMessage
       predictionHistory put_prediction put_shapData put_isLoading
       put_isClearingHistory put_clearHistoryMessage put_predictionHistory
       app].

Section Submission.
Context `{JsRuntime}.
Implicit Types (cl : Closure) (env : SubmitEnv) (formData : gmap string JsValue) (w : World).


(** Both requests leave before the handler waits for either. *)
Lemma handlePrediction_requests_first cl env formData w :
  ∃ rest,
    events (handlePrediction cl env formData w) =
    [SetIsLoading true; SetPrediction VNull; SetShapData VNull;
     Fetch (backendUrl +:+ "/predict/" +:+ selectedDisease cl) formData;
     Fetch (backendUrl +:+ "/explain/" +:+ selectedDisease cl) formData;
     AllSettled] ++ rest.
Proof.
  run_handler.
  destruct (predictionPromise (predict_response env)) as [result|reason],
    (shapPromise (explain_response env)) as [v|reason'],
    (db_truthy cl && userId_truthy cl); try (eexists; reflexivity);
  destruct (get_prop result "prediction"); try (eexists; reflexivity);
  destruct (get_prop result "probability_has_disease"); try (eexists; reflexivity);
  destruct (addDoc_result env); eexists; reflexivity.
Qed.

(** When the write is not attempted or goes through, the form ends with the
    outcome of each call, each a function of its own response only. *)
Lemma handlePrediction_shows_both_outcomes cl env formData w :
  addDoc_result env = None ∨ db_truthy cl && userId_truthy cl = false →
  (∀ result, predictionPromise (predict_response env) = Fulfilled result →
             result ≠ VNull ∧ result ≠ VUndefined) →
  let w' := world_after (handlePrediction cl env formData w) in
  prediction (ui w') = shown (predictionPromise (predict_response env)) ∧
  shapData (ui w') = shown (shapPromise (explain_response env)).
Proof.
  intros Hstore Hobj. run_handler.
  destruct (predictionPromise (predict_response env)) as [result|reason],
    (shapPromise (explain_response env)) as [v|reason'],
    (db_truthy cl && userId_truthy cl) eqn:Hdb; try (split; reflexivity);
  destruct (Hobj result eq_refl) as [Hn Hu];
  (destruct result; try done);
  (destruct Hstore as [->|?]; [split; reflexivity | done]).
Qed.
(** When the classification succeeds, the handle and the user are set and
    the store rejects the write, the rejection reaches the [catch] of the
    handler: whatever the explanation call gave, the form ends with the
    connection error and no explanation. *)
Lemma handlePrediction_rejected_append cl env formData w result label p e :
  predictionPromise (predict_response env) = Fulfilled result →
  get_prop result "prediction" = inr label →
  get_prop result "probability_has_disease" = inr p →
  db_truthy cl && userId_truthy cl = true →
  addDoc_result env = Some e →
  let r := handlePrediction cl env formData w in
  outcome r = Normal tt ∧
  prediction (ui (world_after r))
  = error_object "Failed to connect to the backend server." ∧
  shapData (ui (world_after r)) = VNull ∧
  ConsoleError "API call failed:" e ∈ events r.
Proof.
  intros Hp Hlabel Hprob Hdb He. run_handler.
  rewrite Hp, Hdb, Hlabel, Hprob, He.
  destruct (shapPromise (explain_response env));
    (repeat split; [reflexivity..|]); repeat constructor.
Qed.
End Submission.

(** ** The history store: appends *)

Lemma insert_doc_size (d : HistoryDoc) (c : gmap positive HistoryDoc) :
  size (insert_doc d c) = S (size c).
Proof.
  unfold insert_doc. apply map_size_insert_None.
  apply not_elem_of_dom, is_fresh.
Qed.

(** C1 (counterexample). The classification succeeds, and so does the
    explanation, but the handler has no store handle and no user: nothing is
    appended and the store is as it was. *)
Lemma C1_no_append_when_signed_out :
  (∀ rt : JsRuntime, predictionPromise positive_response = Fulfilled positive_body) ∧
  (∀ rt : JsRuntime,
     let env := {| predict_response := positive_response;
                   explain_response := explanation_response;
                   addDoc_result := None; server_time := 42 |} in
     let r := handlePrediction signed_out env ∅ world_with_history in
     addDoc_calls (events r) = [] ∧
     firestore (world_after r) = firestore world_with_history).
Proof. split; intros rt; [reflexivity | split; reflexivity]. Qed.

(** C1 (amended). For every submission: when the classification call
    fails, or the store handle or the user identity is unset, the handler
    makes no [addDoc] call and the store is unchanged, whatever the
    explanation outcome. When the classification succeeds (with a body that
    is not null) and both the handle and the identity are set, it makes
    exactly one call, with the selected category, the label and the
    probability of the body, the submitted vector and the server time,
    whatever the explanation outcome; the entry is added to the collection
    of the user when the store accepts the write, and the store is unchanged
    when it rejects it. *)
Theorem C1_append_iff_classified_and_signed_in `{JsRuntime}
    (cl : Closure) (env : SubmitEnv) (formData : gmap string JsValue) (w : World) :
  let r := handlePrediction cl env formData w in
  let path := collectionPath cl in
  (∀ reason, predictionPromise (predict_response env) = Rejected reason →
     addDoc_calls (events r) = [] ∧ firestore (world_after r) = firestore w) ∧
  (db_truthy cl && userId_truthy cl = false →
     addDoc_calls (events r) = [] ∧ firestore (world_after r) = firestore w) ∧
  (∀ result label p,
     predictionPromise (predict_response env) = Fulfilled result →
     get_prop result "prediction" = inr label →
     get_prop result "probability_has_disease" = inr p →
     db_truthy cl && userId_truthy cl = true →
     let entry := {| disease_name := selectedDisease cl;
                     prediction_result := label; probability := p;
                     formData := formData; timestamp := server_time env |} in
     addDoc_calls (events r) = [(path, entry)] ∧
     (addDoc_result env = None →
        firestore (world_after r)
        = <[path := insert_doc entry (docs_at (firestore w) path)]> (firestore w) ∧
        size (docs_at (firestore (world_after r)) path)
        = S (size (docs_at (firestore w) path))) ∧
     (∀ e, addDoc_result env = Some e → firestore (world_after r) = firestore w)).
Proof.
  cbv zeta. split; [|split].
  - intros reason Hp. run_handler. rewrite Hp.
    destruct (shapPromise (explain_response env)); split; reflexivity.
  - intros Hdb. run_handler. rewrite Hdb.
    destruct (predictionPromise (predict_response env)),
      (shapPromise (explain_response env)); split; reflexivity.
  - intros result label p Hp Hlabel Hprob Hdb. destruct w as [s fs].
    assert (Hrun : ∀ c : gmap positive HistoryDoc,
      docs_at (<[collectionPath cl := c]> fs) (collectionPath cl) = c).
    { intros c. unfold docs_at. by rewrite lookup_insert_eq. }
    run_handler. rewrite Hp, Hdb, Hlabel, Hprob.
    destruct (shapPromise (explain_response env)), (addDoc_result env) as [e|];
      (split; [reflexivity | split; [intros Hr | intros e' He']]);
      try discriminate; try reflexivity;
      (split; [reflexivity | rewrite Hrun; apply insert_doc_size]).
Qed.

(** Scenario A: a positive diabetes prediction whose explanation fails is
    appended once for the signed-in user. *)
Lemma C1_append_iff_classified_and_signed_in_witness :
  (∀ rt : JsRuntime, predictionPromise (predict_response scenario_A) = Fulfilled positive_body) ∧
  get_prop positive_body "prediction" = inr (VNum 1) ∧
  get_prop positive_body "probability_has_disease" = inr (VNum 0.82) ∧
  db_truthy signed_in && userId_truthy signed_in = true ∧
  (∀ rt : JsRuntime,
     addDoc_calls (events (handlePrediction signed_in scenario_A ∅ empty_world))
     = [(collectionPath signed_in, entry_A)]).
Proof.
  refine (conj (fun rt => eq_refl) (conj eq_refl (conj eq_refl (conj eq_refl _)))).
  intros rt.
  exact (proj1 (proj2 (proj2
           (C1_append_iff_classified_and_signed_in signed_in scenario_A ∅ empty_world))
           positive_body (VNum 1) (VNum 0.82) eq_refl eq_refl eq_refl eq_refl)).
Defined.

(** ** The history store: a rejected write *)

(** C2 (the code at the failing input). Both calls succeed and the store
    rejects the write: the rejection is caught by the [catch] of the
    handler, which was written for a failed connection. The handler
    completes normally, the rejection is logged, but the successful
    prediction that was shown is replaced by the connection error and the
    explanation is never shown. *)
Lemma C2_rejected_append_replaces_the_result `{JsRuntime} :
  let r := handlePrediction signed_in store_rejects ∅ empty_world in
  predictionPromise (predict_response store_rejects) = Fulfilled positive_body ∧
  shapPromise (explain_response store_rejects) = Fulfilled explanation_body ∧
  outcome r = Normal tt ∧
  prediction (ui (world_after r))
  = error_object "Failed to connect to the backend server." ∧
  shapData (ui (world_after r)) = VNull ∧
  events r =
  [SetIsLoading true; SetPrediction VNull; SetShapData VNull;
   Fetch "https://predictionsystem-fwa7.onrender.com/predict/diabetes" ∅;
   Fetch "https://predictionsystem-fwa7.onrender.com/explain/diabetes" ∅;
   AllSettled;
   SetPrediction positive_body;
   AddDoc "/artifacts/default-app-id/users/user-1/prediction_history" entry_A;
   ConsoleError "API call failed:" permission_denied;
   SetPrediction (error_object "Failed to connect to the backend server.");
   SetShapData VNull;
   SetIsLoading false].
Proof. cbv zeta. repeat split. Qed.

(** A successful response whose body is [null] takes the same path: reading
    [result.prediction] throws inside the [try], no write is attempted and
    the form shows the connection error. *)
Lemma null_body_is_reported_as_connection_failure `{JsRuntime} :
  let env := {| predict_response := FetchResolves true (JsonResolves VNull);
                explain_response := explanation_response;
                addDoc_result := None; server_time := 42 |} in
  let r := handlePrediction signed_in env ∅ empty_world in
  outcome r = Normal tt ∧
  addDoc_calls (events r) = [] ∧
  prediction (ui (world_after r))
  = error_object "Failed to connect to the backend server." ∧
  shapData (ui (world_after r)) = VNull.
Proof. cbv zeta. repeat split. Qed.

(** C4 (the code at the failing input). The classification succeeds, the
    explanation fails on the network and the store rejects the write: the
    handler completes normally, but the result it leaves holds neither the
    successful classification nor the failure of the explanation, whose
    message appears in no event of the run. *)
Lemma C4_rejected_append_loses_the_explanation_failure `{JsRuntime} :
  let r := handlePrediction signed_in explanation_fails_store_rejects ∅ empty_world in
  predictionPromise (predict_response explanation_fails_store_rejects)
  = Fulfilled positive_body ∧
  shapPromise (explain_response explanation_fails_store_rejects)
  = Rejected network_error ∧
  outcome r = Normal tt ∧
  prediction (ui (world_after r))
  = error_object "Failed to connect to the backend server." ∧
  shapData (ui (world_after r)) = VNull ∧
  events r =
  [SetIsLoading true; SetPrediction VNull; SetShapData VNull;
   Fetch "https://predictionsystem-fwa7.onrender.com/predict/diabetes" ∅;
   Fetch "https://predictionsystem-fwa7.onrender.com/explain/diabetes" ∅;
   AllSettled;
   SetPrediction positive_body;
   AddDoc "/artifacts/default-app-id/users/user-1/prediction_history" entry_A;
   ConsoleError "API call failed:" permission_denied;
   SetPrediction (error_object "Failed to connect to the backend server.");
   SetShapData VNull;
   SetIsLoading false].
Proof. cbv zeta. repeat split. Qed.

(** ** handleClearHistory *)

Lemma batch_delete_each_run (path : string) (docs : list (positive * HistoryDoc))
    (batch : list positive) (w : World) :
  batch_delete_each path docs batch w
  = (Normal (batch ++ map fst docs), w, map (BatchDelete path) (map fst docs)).
Proof.
  revert batch. induction docs as [|[id d] rest IH]; intros batch.
  - cbn. by rewrite app_nil_r.
  - cbn [batch_delete_each map fst].
    cbv [mbind M_bind bind emit]. rewrite IH.
    by rewrite <- app_assoc.
Qed.

Lemma fold_delete_lookup (ids : list positive) (c : gmap positive HistoryDoc) (k : positive) :
  fold_left (fun c id => delete id c) ids c !! k
  = if decide (k ∈ ids) then None else c !! k.
Proof.
  revert c. induction ids as [|id ids IH]; intros c; cbn [fold_left].
  - by destruct (decide (k ∈ @nil positive)) as [?%elem_of_nil|].
  - rewrite IH. destruct (decide (k ∈ ids)) as [Hin|Hnin].
    + by rewrite decide_True by (apply elem_of_cons; by right).
    + destruct (decide (k = id)) as [->|Hne].
      * rewrite decide_True by (apply elem_of_cons; by left).
        apply lookup_delete_eq.
      * rewrite decide_False by (intros [?|?]%elem_of_cons; done).
        by apply lookup_delete_ne.
Qed.

(** Deleting the documents a read returned from the collection it read
    leaves the collection empty. *)
Lemma delete_all_read (c : gmap positive HistoryDoc) :
  fold_left (fun c id => delete id c) (map fst (map_to_list c)) c = ∅.
Proof.
  apply map_eq. intros k. rewrite fold_delete_lookup, lookup_empty.
  destruct (decide (k ∈ map fst (map_to_list c))) as [|Hnin]; [done |].
  destruct (c !! k) as [d|] eqn:Hk; [|done].
  exfalso. apply Hnin. apply list_elem_of_fmap. exists (k, d).
  split; [done | by apply elem_of_map_to_list].
Qed.

Lemma announces_success_app (evs1 evs2 : list event) :
  announces_success (evs1 ++ evs2) = announces_success evs1 || announces_success evs2.
Proof. apply existsb_app. Qed.

Lemma announces_success_deletes (path : string) (ids : list positive) :
  announces_success (map (BatchDelete path) ids) = false.
Proof. by induction ids. Qed.

(** What a clear does, case by case: nothing without a handle or a user;
    the error notification when the read or the commit is rejected; and
    otherwise the deletion of the documents that were read. *)
Lemma handleClearHistory_run (cl : Closure) (env : ClearEnv) (s : AppState)
    (fs : gmap string (gmap positive HistoryDoc)) :
  let w := {| ui := s; firestore := fs |} in
  let path := collectionPath cl in
  let ids := map fst (snapshot_of fs path) in
  let fs1 := <[path := fold_left (fun c d => insert_doc d c)
                         (appended_meanwhile env) (docs_at fs path)]> fs in
  let failed := put_isClearingHistory false
                  (put_clearHistoryMessage error_message
                     (put_isClearingHistory true s)) in
  handleClearHistory cl env w =
  if negb (db_truthy cl) || negb (userId_truthy cl) then (Normal tt, w, [])
  else
    match getDocs_result env with
    | Some e =>
        (Normal tt, {| ui := failed; firestore := fs |},
         [SetIsClearingHistory true; GetDocs path;
          SetClearHistoryMessage error_message;
          ConsoleError "Error clearing prediction history:" e;
          SetIsClearingHistory false])
    | None =>
        match commit_result env with
        | Some e =>
            (Normal tt, {| ui := failed; firestore := fs1 |},
             [SetIsClearingHistory true; GetDocs path]
             ++ map (BatchDelete path) ids
             ++ [BatchCommit; SetClearHistoryMessage error_message;
                 ConsoleError "Error clearing prediction history:" e;
                 SetIsClearingHistory false])
        | None =>
            (Normal tt,
             {| ui := put_isClearingHistory false
                        (put_clearHistoryMessage success_message
                           (put_isClearingHistory true s));
                firestore :=
                  <[path := fold_left (fun c id => delete id c) ids (docs_at fs1 path)]> fs1 |},
             [SetIsClearingHistory true; GetDocs path]
             ++ map (BatchDelete path) ids
             ++ [BatchCommit; SetClearHistoryMessage success_message;
                 ConsoleLog "Prediction history cleared successfully.";
                 SetIsClearingHistory false])
        end
    end.
Proof.
  cbv zeta. unfold handleClearHistory.
  destruct (negb (db_truthy cl) || negb (userId_truthy cl)); [done |].
  cbv [try_catch_finally mbind M_bind bind getDocs emit setIsClearingHistory with_ui].
  destruct (getDocs_result env) as [e|]; [done |].
  cbv [others_append with_docs ui firestore].
  rewrite batch_delete_each_run. cbv [commit mbind M_bind bind emit].
  destruct (commit_result env) as [e|];
    cbv [setClearHistoryMessage console_error console_log setIsClearingHistory
         with_docs with_ui emit throw mbind M_bind bind ui firestore];
    cbn [app]; by rewrite <- ?app_assoc.
Qed.

Lemma docs_at_insert (fs : gmap string (gmap positive HistoryDoc)) (path : string)
    (c : gmap positive HistoryDoc) :
  docs_at (<[path := c]> fs) path = c.
Proof. unfold docs_at. by rewrite lookup_insert_eq. Qed.

(** A clear that announces success had a handle and a user, and both its
    read and its commit went through. *)
Lemma announces_success_inv (cl : Closure) (env : ClearEnv) (w : World) :
  announces_success (events (handleClearHistory cl env w)) = true →
  negb (db_truthy cl) || negb (userId_truthy cl) = false ∧
  getDocs_result env = None ∧ commit_result env = None.
Proof.
  destruct w as [s fs]. rewrite handleClearHistory_run. cbv zeta.
  destruct (negb (db_truthy cl) || negb (userId_truthy cl)); [done |].
  destruct (getDocs_result env) as [e|]; [done |].
  destruct (commit_result env) as [e|]; [|done].
  unfold events. cbn [snd].
  rewrite !announces_success_app, announces_success_deletes. done.
Qed.

(** C5. After a clear that completes successfully (it announces success)
    with no append landing between its read and its commit, the next
    snapshot the listener is delivered has no entry, the history it sets is
    empty, and the aggregation of that snapshot is the empty mapping. *)
Theorem C5_clear_then_empty_snapshot (cl : Closure) (env : ClearEnv) (w : World) :
  appended_meanwhile env = [] →
  announces_success (events (handleClearHistory cl env w)) = true →
  let w' := world_after (handleClearHistory cl env w) in
  let delivered := map snd (snapshot_of (firestore w') (collectionPath cl)) in
  delivered = [] ∧
  events (onSnapshot cl w') = [SetPredictionHistory []] ∧
  predictionHistory (ui (world_after (onSnapshot cl w'))) = [] ∧
  aggregate delivered = [] ∧
  counts_map (aggregate delivered) = ∅.
Proof.
  intros Hnone Hok.
  destruct (announces_success_inv _ _ _ Hok) as (Hdb & Hread & Hcommit).
  destruct w as [s fs]. cbv zeta.
  assert (Hempty : snapshot_of
            (firestore (world_after (handleClearHistory cl env {| ui := s; firestore := fs |})))
            (collectionPath cl) = []).
  { rewrite handleClearHistory_run. cbv zeta.
    rewrite Hdb, Hread, Hcommit, Hnone. unfold world_after. cbn [fst snd firestore fold_left].
    unfold snapshot_of at 1. rewrite !docs_at_insert.
    unfold snapshot_of. rewrite delete_all_read. apply map_to_list_empty. }
  unfold onSnapshot. rewrite Hempty. done.
Qed.

(** A log of two entries is empty after a clear that goes through. *)
Lemma C5_clear_then_empty_snapshot_witness :
  appended_meanwhile clear_goes_through = [] ∧
  announces_success
    (events (handleClearHistory signed_in clear_goes_through world_with_history)) = true ∧
  length (snapshot_of (firestore world_with_history) (collectionPath signed_in)) = 2 ∧
  map snd (snapshot_of
             (firestore (world_after
                (handleClearHistory signed_in clear_goes_through world_with_history)))
             (collectionPath signed_in)) = [].
Proof.
  refine (conj eq_refl (conj _ (conj _ _))).
  - vm_compute. reflexivity.
  - vm_compute. reflexivity.
  - refine (proj1 (C5_clear_then_empty_snapshot signed_in clear_goes_through
                     world_with_history eq_refl _)).
    vm_compute. reflexivity.
Defined.

(** An entry that another submission appends between the read and the
    commit of a clear is not in the batch and survives the clear. *)
Lemma concurrent_append_survives_clear :
  let env := {| getDocs_result := None;
                appended_meanwhile := [diabetes_doc 1];
                commit_result := None |} in
  let r := handleClearHistory signed_in env world_with_history in
  announces_success (events r) = true ∧
  map snd (snapshot_of (firestore (world_after r)) (collectionPath signed_in))
  = [diabetes_doc 1].
Proof. cbv zeta. split; vm_compute; reflexivity. Qed.

(** C10. When the store handle or the user identity is unset, a clear
    returns at once: the run has no event at all (no read, no delete, no
    commit, no notification, no change of the clearing flag) and leaves the
    state and the history log as they were. *)
Theorem C10_clear_is_noop_without_store_or_user (cl : Closure) (env : ClearEnv) (w : World) :
  db cl = None ∨ userId cl = None →
  handleClearHistory cl env w = (Normal tt, w, []).
Proof.
  intros Hunset. unfold handleClearHistory.
  replace (negb (db_truthy cl) || negb (userId_truthy cl)) with true; [done |].
  unfold db_truthy, userId_truthy.
  destruct Hunset as [-> | ->]; [done | by destruct (db cl)].
Qed.

(** Without a handle and a user, a clear of a log of two entries does
    nothing. *)
Lemma C10_clear_is_noop_without_store_or_user_witness :
  (db signed_out = None ∨ userId signed_out = None) ∧
  handleClearHistory signed_out clear_goes_through world_with_history
  = (Normal tt, world_with_history, []).
Proof.
  exact (conj (or_introl eq_refl)
              (C10_clear_is_noop_without_store_or_user signed_out clear_goes_through
                 world_with_history (or_introl eq_refl))).
Defined.

(** * Further properties of the chart, the labels and the form *)

Set Warnings "-clear-no-such-hyp".

Section ChartData.
Implicit Types (h : list string) (d : string).

Lemma first_seen_elem h d : d ∈ first_seen h ↔ d ∈ h.
Proof.
  induction h as [|x h IH]; [done |]. cbn [first_seen].
  rewrite !elem_of_cons, list_elem_of_filter, IH.
  destruct (decide (d = x)); naive_solver.
Qed.

Lemma first_seen_NoDup h : NoDup (first_seen h).
Proof.
  induction h as [|x h IH]; cbn [first_seen]; [constructor |].
  apply NoDup_cons. split; [|by apply NoDup_filter].
  rewrite list_elem_of_filter. naive_solver.
Qed.

Lemma occurrences_cons d x h :
  occurrences d (x :: h) = (if decide (x = d) then 1 else 0) + occurrences d h.
Proof.
  unfold occurrences. destruct (decide (x = d)) as [Hx|Hx].
  - by rewrite filter_cons_True.
  - by rewrite filter_cons_False.
Qed.

Lemma occurrences_zero d h : occurrences d h = 0 ↔ d ∉ h.
Proof.
  induction h as [|x h IH]; [by split; [intros _; apply not_elem_of_nil |] |].
  rewrite occurrences_cons, not_elem_of_cons.
  destruct (decide (x = d)); [naive_solver lia |].
  rewrite <- IH. naive_solver.
Qed.

Lemma fold_bump_map_lookup h (m : gmap string nat) d :
  fold_left bump_map h m !! d
  = if decide (occurrences d h = 0) then m !! d
    else Some (default 0 (m !! d) + occurrences d h).
Proof.
  revert m. induction h as [|x h IH]; intros m; [done |].
  cbn [fold_left]. rewrite IH, occurrences_cons. unfold bump_map.
  destruct (decide (x = d)) as [->|Hx].
  - rewrite lookup_insert_eq. cbn [default].
    destruct (decide (occurrences d h = 0)) as [->|?].
    + rewrite decide_False by lia. f_equal. generalize (default 0 (m !! d)). lia.
    + rewrite decide_False by lia. f_equal.
      generalize (default 0 (m !! d)) (occurrences d h). unfold id. lia.
  - rewrite lookup_insert_ne by done. done.
Qed.

Lemma diseaseCounts_lookup h d :
  counts_map (diseaseCounts h) !! d
  = if decide (occurrences d h = 0) then None else Some (occurrences d h).
Proof.
  unfold diseaseCounts. rewrite counts_map_fold, fold_bump_map_lookup.
  unfold counts_map. cbn [list_to_map foldr]. by rewrite lookup_empty.
Qed.

Lemma pairs_of_keys (l : list (string * nat)) (g : string → nat) :
  (∀ k n, (k, n) ∈ l → n = g k) → l = map (fun k => (k, g k)) (map fst l).
Proof.
  induction l as [|[k n] l IH]; intros Hg; [done |]. cbn [map fst].
  rewrite <- IH by (intros ???; apply Hg; by right).
  by rewrite <- (Hg k n) by left.
Qed.

(** The counts object in closed form: the categories in the order of their
    first appearance, each with the number of its entries. *)
Lemma diseaseCounts_closed_form h :
  diseaseCounts h = map (fun d => (d, occurrences d h)) (first_seen h).
Proof.
  rewrite <- diseaseCounts_keys. apply pairs_of_keys. intros k n Hin.
  assert (Hl : counts_map (diseaseCounts h) !! k = Some n).
  { apply elem_of_list_to_map_1; [|done].
    rewrite diseaseCounts_keys. apply first_seen_NoDup. }
  rewrite diseaseCounts_lookup in Hl.
  destruct (decide (occurrences k h = 0)); congruence.
Qed.
End ChartData.

(** X1. The data of the pie chart, in closed form, for a history whose
    categories are ordinary keys with a first character in ASCII: one slice
    for each category of the history, in the order of first appearance,
    named by the capitalised category and valued by the number of entries
    of that category. *)
Theorem X1_pieChartData_closed_form (predictionHistory : list string) :
  Forall (fun category => ordinary_key category = true ∧ ascii_initial category = true)
         predictionHistory →
  pieChartData predictionHistory
  = map (fun disease => {| name := capitalize disease;
                           value := occurrences disease predictionHistory |})
        (first_seen predictionHistory).
Proof.
  intros _. unfold pieChartData. rewrite diseaseCounts_closed_form, map_map. done.
Qed.

(** Kidney twice around heart: two slices, Kidney with 2 and Heart with 1. *)
Lemma X1_pieChartData_closed_form_witness :
  Forall (fun category => ordinary_key category = true ∧ ascii_initial category = true)
         ["kidney"; "heart"; "kidney"] ∧
  pieChartData ["kidney"; "heart"; "kidney"]
  = [{| name := "Kidney"; value := 2 |}; {| name := "Heart"; value := 1 |}].
Proof.
  assert (Hkeys : Forall (fun category => ordinary_key category = true
                                          ∧ ascii_initial category = true)
                         ["kidney"; "heart"; "kidney"]).
  { repeat constructor. }
  exact (conj Hkeys (X1_pieChartData_closed_form _ Hkeys)).
Defined.

(** X2. For a history none of whose categories is a name inherited from
    [Object.prototype]: the chart is drawn exactly when the history is not
    empty; the slices are the categories of the history, each once, and
    every slice has a positive value. *)
Theorem X2_slices_are_the_categories (predictionHistory : list string) :
  Forall (fun category => inherited_name category = false) predictionHistory →
  shows_chart predictionHistory = negb (bool_decide (predictionHistory = [])) ∧
  NoDup (map fst (diseaseCounts predictionHistory)) ∧
  (∀ disease, disease ∈ map fst (diseaseCounts predictionHistory)
              ↔ disease ∈ predictionHistory) ∧
  Forall (fun slice => 0 < value slice) (pieChartData predictionHistory).
Proof.
  intros _. rewrite diseaseCounts_keys. split; [|split; [|split]].
  - unfold shows_chart. rewrite pieChartData_length.
    by destruct predictionHistory.
  - apply first_seen_NoDup.
  - intros disease. apply first_seen_elem.
  - unfold pieChartData. rewrite diseaseCounts_closed_form, map_map.
    apply Forall_fmap, Forall_forall. intros d Hd. cbn.
    apply (proj1 (first_seen_elem _ _)) in Hd.
    destruct (decide (occurrences d predictionHistory = 0)) as [Hz|]; [|lia].
    by apply occurrences_zero in Hz.
Qed.

(** A history of three entries in two categories: the chart is drawn. *)
Lemma X2_slices_are_the_categories_witness :
  Forall (fun category => inherited_name category = false) ["heart"; "kidney"; "heart"] ∧
  shows_chart ["heart"; "kidney"; "heart"] = true.
Proof.
  assert (Hnames : Forall (fun category => inherited_name category = false)
                          ["heart"; "kidney"; "heart"]).
  { repeat constructor. }
  exact (conj Hnames (proj1 (X2_slices_are_the_categories _ Hnames))).
Defined.

Lemma cell_fills_lookup (h : list string) (i : nat) :
  cell_fills h !! i
  = if decide (i < length (first_seen h)) then Some (COLORS !! (i `mod` 4)) else None.
Proof.
  unfold cell_fills. rewrite list_lookup_imap, <- pieChartData_length.
  destruct (decide (i < length (pieChartData h))) as [Hlt|Hge].
  - by destruct (lookup_lt_is_Some_2 _ _ Hlt) as [x ->].
  - by rewrite (lookup_ge_None_2 (pieChartData h)) by lia.
Qed.

Lemma first_seen_available (h : list string) :
  Forall (fun d => d ∈ availableDiseases) h → (length (first_seen h) ≤ 4)%nat.
Proof.
  intros Hall.
  change 4 with (length availableDiseases).
  apply submseteq_length, NoDup_submseteq; [apply first_seen_NoDup |].
  intros d Hd. apply (proj1 (first_seen_elem _ _)) in Hd.
  by apply (proj1 (Forall_forall _ _) Hall).
Qed.

Lemma cell_fills_NoDup (h : list string) :
  NoDup (cell_fills h) ↔ (length (first_seen h) ≤ 4)%nat.
Proof.
  split.
  - intros Hnd. destruct (decide ((length (first_seen h) ≤ 4)%nat)) as [|Hgt]; [done |].
    assert (H0 : cell_fills h !! 0 = Some (Some "#2196f3")).
    { rewrite cell_fills_lookup, decide_True by lia. done. }
    assert (H4 : cell_fills h !! 4 = Some (Some "#2196f3")).
    { rewrite cell_fills_lookup, decide_True by lia. done. }
    pose proof (NoDup_lookup _ _ _ _ Hnd H0 H4). lia.
  - intros Hle. apply NoDup_alt. intros i j fill.
    rewrite !cell_fills_lookup.
    destruct (decide (i < length (first_seen h))) as [Hi|]; [|done].
    destruct (decide (j < length (first_seen h))) as [Hj|]; [|done].
    intros [= <-].
    destruct i as [|[|[|[|i]]]]; [| | | |lia];
    (destruct j as [|[|[|[|j]]]]; [| | | |lia]); done.
Qed.

(** X3. For a history none of whose categories is a name inherited from
    [Object.prototype], the slices of the chart all have different colours
    exactly when the history has at most four categories; and they do
    whenever every entry of the history is one of the four available
    diseases. *)
Theorem X3_colours_distinct_up_to_four (predictionHistory : list string) :
  (Forall (fun category => inherited_name category = false) predictionHistory →
   (NoDup (cell_fills predictionHistory)
    ↔ (length (first_seen predictionHistory) ≤ 4)%nat)) ∧
  (Forall (fun disease => disease ∈ availableDiseases) predictionHistory →
   NoDup (cell_fills predictionHistory)).
Proof.
  split; [intros _; apply cell_fills_NoDup |].
  intros Hall. by apply cell_fills_NoDup, first_seen_available.
Qed.

(** A history over three of the available diseases: three colours. *)
Lemma X3_colours_distinct_up_to_four_witness :
  Forall (fun disease => disease ∈ availableDiseases) ["kidney"; "heart"; "kidney"; "diabetes"] ∧
  NoDup (cell_fills ["kidney"; "heart"; "kidney"; "diabetes"]) ∧
  Forall (fun category => inherited_name category = false)
         ["kidney"; "heart"; "kidney"; "diabetes"] ∧
  (length (first_seen ["kidney"; "heart"; "kidney"; "diabetes"]) ≤ 4)%nat.
Proof.
  assert (Hall : Forall (fun disease => disease ∈ availableDiseases)
                        ["kidney"; "heart"; "kidney"; "diabetes"]).
  { repeat constructor. }
  assert (Hnames : Forall (fun category => inherited_name category = false)
                          ["kidney"; "heart"; "kidney"; "diabetes"]).
  { repeat constructor. }
  pose (Hnd := proj2 (X3_colours_distinct_up_to_four _) Hall).
  exact (conj Hall (conj Hnd (conj Hnames
           (proj1 (proj1 (X3_colours_distinct_up_to_four _) Hnames) Hnd)))).
Defined.

(** X4. The label of a bar has the length of the feature name, has a space
    wherever the name has an underscore and the character of the name
    elsewhere, so no underscore is left in it; relabelling a label changes
    nothing. *)
Theorem X4_feature_label_replaces_underscores (feature_name : string) :
  String.length (feature_label feature_name) = String.length feature_name ∧
  (∀ i, String.get i (feature_label feature_name)
        = (fun c => if Ascii.eqb c "_" then " "%char else c)
            <$> String.get i feature_name) ∧
  (∀ i, String.get i (feature_label feature_name) ≠ Some "_"%char) ∧
  feature_label (feature_label feature_name) = feature_label feature_name.
Proof.
  assert (Hget : ∀ s i, String.get i (feature_label s)
                        = (fun c => if Ascii.eqb c "_" then " "%char else c)
                            <$> String.get i s).
  { induction s as [|c s IH]; intros [|i]; cbn; [done..|]. apply IH. }
  split; [|split; [apply Hget |split]].
  - induction feature_name as [|c s IH]; cbn; [done | by rewrite IH].
  - intros i. rewrite Hget. destruct (String.get i feature_name) as [c|]; [|done].
    cbn. destruct (Ascii.eqb c "_") eqn:Hc; [done |].
    intros [= ->]. by rewrite Ascii.eqb_refl in Hc.
  - induction feature_name as [|c s IH]; cbn; [done |]. rewrite IH. f_equal.
    destruct (Ascii.eqb c "_") eqn:Hc; [done | by rewrite Hc].
Qed.

(** ** The form data *)

Lemma initialData_fold (fields : list Field.t) (acc : gmap string JsValue) (n : string) :
  fold_left (fun acc field => <[Field.name field := VStr ""]> acc) fields acc !! n
  = if decide (n ∈ map Field.name fields) then Some (VStr "") else acc !! n.
Proof.
  revert acc. induction fields as [|field fields IH]; intros acc; cbn [fold_left map].
  - by destruct (decide (n ∈ @nil string)) as [?%elem_of_nil|].
  - rewrite IH. destruct (decide (n ∈ map Field.name fields)) as [Hin|Hnin].
    + by rewrite decide_True by (by right).
    + destruct (decide (n = Field.name field)) as [->|Hne].
      * rewrite decide_True by (by left). apply lookup_insert_eq.
      * rewrite decide_False by (intros [?|?]%elem_of_cons; done).
        by rewrite lookup_insert_ne.
Qed.

Lemma initialData_lookup (fields : list Field.t) (n : string) :
  initialData fields !! n
  = if decide (n ∈ map Field.name fields) then Some (VStr "") else None.
Proof. unfold initialData. by rewrite initialData_fold, lookup_empty. Qed.

Lemma initialData_dom (fields : list Field.t) :
  dom (initialData fields) = list_to_set (map Field.name fields).
Proof.
  apply set_eq. intros n.
  rewrite elem_of_dom, initialData_lookup, elem_of_list_to_set.
  destruct (decide (n ∈ map Field.name fields)); [by split; [|eexists] |].
  split; [by intros [? ?] | done].
Qed.

(** X5. The initial form data has every field of the form unset, and no
    other entry; when the names of the fields are distinct it has one entry
    for each field. *)
Theorem X5_initialData_all_unset (fields : list Field.t) :
  (∀ n, initialData fields !! n
        = if decide (n ∈ map Field.name fields) then Some (VStr "") else None) ∧
  (NoDup (map Field.name fields) → size (initialData fields) = length fields).
Proof.
  split; [apply initialData_lookup |].
  intros Hnd. rewrite <- size_dom, initialData_dom, size_list_to_set by done.
  apply length_map.
Qed.

(** The heart form: fifteen fields, fifteen unset entries. *)
Lemma X5_initialData_all_unset_witness :
  NoDup (map Field.name forms_heart) ∧ size (initialData forms_heart) = 15.
Proof.
  assert (Hnd : NoDup (map Field.name forms_heart)).
  { apply (bool_decide_unpack _). vm_compute. exact I. }
  exact (conj Hnd (proj2 (X5_initialData_all_unset forms_heart) Hnd)).
Defined.

Lemma forms_own_available (disease : string) :
  disease ∈ availableDiseases → is_Some (forms_own forms disease).
Proof.
  intros Hin. repeat (apply elem_of_cons in Hin as [->|Hin]); try (by eexists).
  by apply elem_of_nil in Hin.
Qed.

Lemma forms_own_unavailable (disease : string) :
  disease ∉ availableDiseases → forms_own forms disease = None.
Proof.
  intros Hnin. unfold forms, forms_own.
  repeat (case_decide; [subst; exfalso; apply Hnin; repeat constructor |]).
  done.
Qed.

Lemma forms_well_formed (disease : string) (fields : list Field.t) :
  forms_own forms disease = Some fields →
  fields ≠ [] ∧ NoDup (map Field.name fields) ∧
  Forall (fun field => well_formed_field field = true) fields.
Proof.
  unfold forms, forms_own.
  repeat (case_decide; [intros [= <-]; split; [done |];
                        split; [apply (bool_decide_unpack _); vm_compute; exact I
                               | repeat constructor] |]).
  done.
Qed.

(** X6. Each of the four available diseases has a form, whose fields have
    distinct names, whose selects offer exactly the values 0 and 1 and whose
    number fields have a placeholder and no options; selecting it resets the
    form data to all fields unset, without an exception. Any other name has
    no form: the lookup gives [undefined] and the form has no fields, unless
    the name is one the table inherits from [Object.prototype]
    ([constructor], [toString], ...), for which the lookup gives the
    inherited value, not a list of fields. Selecting either makes the effect
    throw. *)
Theorem X6_every_available_disease_has_a_form (disease : string) :
  (disease ∈ availableDiseases →
   ∃ fields,
     forms_get forms disease = FieldsEntry fields ∧
     currentFormFields disease = Some fields ∧ fields ≠ [] ∧
     NoDup (map Field.name fields) ∧
     Forall (fun field => well_formed_field field = true) fields ∧
     ∀ formData, formData_effect (Some disease) formData = inr (initialData fields)) ∧
  (disease ∉ availableDiseases →
   (if inherited_name disease
    then forms_get forms disease = InheritedEntry ∧ currentFormFields disease = None
    else forms_get forms disease = NoEntry ∧ currentFormFields disease = Some []) ∧
   (disease ≠ "" → ∀ formData, ∃ type_error,
      formData_effect (Some disease) formData = inl type_error)).
Proof.
  split.
  - intros Hin. destruct (forms_own_available _ Hin) as [fields Hf].
    exists fields. destruct (forms_well_formed _ _ Hf) as (Hne & Hnd & Hwf).
    unfold currentFormFields, formData_effect, forms_get. rewrite Hf.
    repeat split; try done.
    intros formData. rewrite bool_decide_eq_false_2; [done |].
    intros ->. by vm_compute in Hf.
  - intros Hnin. unfold currentFormFields, formData_effect, forms_get.
    rewrite forms_own_unavailable by done.
    split; [by destruct (inherited_name disease) |].
    intros Hne formData. rewrite bool_decide_eq_false_2 by done.
    destruct (inherited_name disease); by eexists.
Qed.

(** The kidney form has fields, under distinct names; [toString] is no
    disease and gives no list of fields. *)
Lemma X6_every_available_disease_has_a_form_witness :
  "kidney" ∈ availableDiseases ∧
  (∃ fields, currentFormFields "kidney" = Some fields ∧ fields ≠ [] ∧
             NoDup (map Field.name fields)) ∧
  ("toString" ∉ availableDiseases) ∧ currentFormFields "toString" = None.
Proof.
  assert (Hin : "kidney" ∈ availableDiseases) by repeat constructor.
  assert (Hnin : "toString" ∉ availableDiseases).
  { intros H. repeat (apply elem_of_cons in H as [H|H]; [discriminate H |]).
    by apply elem_of_nil in H. }
  refine (conj Hin (conj _ (conj Hnin _))).
  - destruct (proj1 (X6_every_available_disease_has_a_form "kidney") Hin)
      as (fields & _ & Hc & Hne & Hnd & _).
    exists fields. exact (conj Hc (conj Hne Hnd)).
  - exact (proj2 (proj1 (proj2 (X6_every_available_disease_has_a_form "toString") Hnin))).
Defined.

Section FormChangeFacts.
Context `{JsRuntime}.
Implicit Types (fd : gmap string JsValue) (changes : list (string * JsValue)).

Lemma handleInputChange_value fd n v :
  ∃ stored, handleInputChange fd n v !! n = Some stored ∧ unset_or_number stored = true.
Proof.
  unfold handleInputChange. cbv zeta. rewrite lookup_insert_eq. eexists. split; [done |].
  by destruct (is_empty_string v).
Qed.

Lemma apply_changes_snoc fd changes n v :
  apply_changes fd (changes ++ [(n, v)]) = handleInputChange (apply_changes fd changes) n v.
Proof. unfold apply_changes. by rewrite fold_left_app. Qed.

Lemma apply_changes_dom fd changes :
  dom (apply_changes fd changes) = dom fd ∪ list_to_set changes.*1.
Proof.
  induction changes as [|[n v] changes IH] using rev_ind.
  - cbn. set_solver.
  - rewrite apply_changes_snoc. unfold handleInputChange. cbv zeta.
    rewrite dom_insert_L, IH, fmap_app, list_to_set_app_L. cbn. set_solver.
Qed.

Lemma apply_changes_values fd changes :
  map_Forall (fun _ v => unset_or_number v = true) fd →
  map_Forall (fun _ v => unset_or_number v = true) (apply_changes fd changes).
Proof.
  intros Hfd. induction changes as [|[n v] changes IH] using rev_ind; [done |].
  rewrite apply_changes_snoc. unfold handleInputChange. cbv zeta.
  apply map_Forall_insert_2; [|done]. by destruct (is_empty_string v).
Qed.

Lemma apply_changes_untouched fd changes n :
  n ∉ changes.*1 → apply_changes fd changes !! n = fd !! n.
Proof.
  induction changes as [|[n' v] changes IH] using rev_ind; [done |].
  rewrite fmap_app, not_elem_of_app. cbn. rewrite list_elem_of_singleton.
  intros [Hnin Hne]. rewrite apply_changes_snoc. unfold handleInputChange. cbv zeta.
  rewrite lookup_insert_ne by done. by apply IH.
Qed.

Lemma initialData_values (fields : list Field.t) :
  map_Forall (fun _ v => unset_or_number v = true) (initialData fields).
Proof.
  intros n v. rewrite initialData_lookup. case_decide; [|done]. by intros [= <-].
Qed.
End FormChangeFacts.

(** X7. Starting from the initial data of a form and handling any sequence
    of change events on fields of that form, the form data keeps exactly the
    fields of the form as its keys, every value is either the unset sentinel
    or a number, and a field that no event names is still unset. *)
Theorem X7_form_data_invariant `{JsRuntime} (fields : list Field.t)
    (changes : list (string * JsValue)) :
  Forall (fun change => change.1 ∈ map Field.name fields) changes →
  let formData := apply_changes (initialData fields) changes in
  dom formData = list_to_set (map Field.name fields) ∧
  map_Forall (fun _ v => unset_or_number v = true) formData ∧
  (∀ n, n ∈ map Field.name fields → n ∉ changes.*1 → formData !! n = Some (VStr "")).
Proof.
  intros Hch. cbv zeta. split; [|split].
  - rewrite apply_changes_dom, initialData_dom.
    assert (changes.*1 ⊆ map Field.name fields).
    { intros n (ch & -> & Hin)%list_elem_of_fmap.
      by apply (proj1 (Forall_forall _ _) Hch). }
    set_solver.
  - apply apply_changes_values, initialData_values.
  - intros n Hin Hnin. rewrite apply_changes_untouched by done.
    rewrite initialData_lookup. by rewrite decide_True.
Qed.

(** On the diabetes form: the glucose is typed, the age typed and erased. *)
Lemma X7_form_data_invariant_witness :
  Forall (fun change => change.1 ∈ map Field.name forms_diabetes)
         [("Glucose", VStr "148"); ("Age", VStr "50"); ("Age", VStr "")] ∧
  ∀ rt : JsRuntime,
    dom (apply_changes (initialData forms_diabetes)
           [("Glucose", VStr "148"); ("Age", VStr "50"); ("Age", VStr "")])
    = list_to_set (map Field.name forms_diabetes).
Proof.
  assert (Hch : Forall (fun change => change.1 ∈ map Field.name forms_diabetes)
                       [("Glucose", VStr "148"); ("Age", VStr "50"); ("Age", VStr "")]).
  { repeat constructor. }
  refine (conj Hch (fun rt => _)).
  exact (proj1 (X7_form_data_invariant forms_diabetes _ Hch)).
Defined.

(** X8. How change events compose: of two changes of the same field the
    later one decides; changes of different fields can be swapped; and
    typing into an unset field and erasing it again gives back the form data
    as it was. *)
Theorem X8_changes_compose `{JsRuntime} (formData : gmap string JsValue)
    (n1 n2 : string) (v1 v2 : JsValue) :
  handleInputChange (handleInputChange formData n1 v1) n1 v2
  = handleInputChange formData n1 v2 ∧
  (n1 ≠ n2 →
   handleInputChange (handleInputChange formData n1 v1) n2 v2
   = handleInputChange (handleInputChange formData n2 v2) n1 v1) ∧
  (formData !! n1 = Some (VStr "") →
   handleInputChange (handleInputChange formData n1 v1) n1 (VStr "") = formData).
Proof.
  unfold handleInputChange. cbv zeta. split; [|split].
  - apply insert_insert_eq.
  - intros Hne. by apply insert_insert_ne.
  - intros Hunset. rewrite insert_insert_eq. cbn. by apply insert_id.
Qed.

(** The age of the diabetes form, typed and erased. *)
Lemma X8_changes_compose_witness :
  "Age" ≠ "Glucose" ∧ initialData forms_diabetes !! "Age" = Some (VStr "") ∧
  ∀ rt : JsRuntime,
    handleInputChange (handleInputChange (initialData forms_diabetes) "Age" (VStr "50"))
                      "Age" (VStr "")
    = initialData forms_diabetes.
Proof.
  assert (Hunset : initialData forms_diabetes !! "Age" = Some (VStr "")).
  { vm_compute. reflexivity. }
  refine (conj _ (conj Hunset (fun rt => _))); [discriminate |].
  exact (proj2 (proj2 (X8_changes_compose (initialData forms_diabetes)
                         "Age" "Glucose" (VStr "50") (VStr ""))) Hunset).
Defined.

(** * Further properties of the handlers *)

Section SubmissionFacts.
Context `{JsRuntime}.
Implicit Types (cl : Closure) (env : SubmitEnv) (formData : gmap string JsValue) (w : World).

Ltac submission_cases cl env :=
  destruct (predictionPromise (predict_response env)) as [result|reason],
    (shapPromise (explain_response env)) as [v|reason'],
    (db_truthy cl && userId_truthy cl);
  try (destruct (get_prop result "prediction"));
  try (destruct (get_prop result "probability_has_disease"));
  try (destruct (addDoc_result env)).


Lemma handlePrediction_fetch_calls cl env formData w :
  fetch_calls (events (handlePrediction cl env formData w))
  = [(backendUrl +:+ "/predict/" +:+ selectedDisease cl, formData);
     (backendUrl +:+ "/explain/" +:+ selectedDisease cl, formData)].
Proof.
  destruct w as [s fs]. run_handler. submission_cases cl env; reflexivity.
Qed.


(** The store after a submission: as it was, or with one more document in
    the collection of the user. *)
Lemma handlePrediction_store cl env formData w :
  let w' := world_after (handlePrediction cl env formData w) in
  firestore w' = firestore w ∨
  ∃ entry, addDoc_calls (events (handlePrediction cl env formData w))
           = [(collectionPath cl, entry)] ∧
           firestore w'
           = <[collectionPath cl := insert_doc entry (docs_at (firestore w) (collectionPath cl))]>
               (firestore w).
Proof.
  destruct w as [s fs]. run_handler. submission_cases cl env;
    try (left; reflexivity); right; eexists; split; reflexivity.
Qed.
End SubmissionFacts.

Lemma insert_doc_keeps (d : HistoryDoc) (c : gmap positive HistoryDoc)
    (id : positive) (x : HistoryDoc) :
  c !! id = Some x → insert_doc d c !! id = Some x.
Proof.
  intros Hid. unfold insert_doc. rewrite lookup_insert_ne; [done |].
  intros <-. pose proof (is_fresh (dom c)) as Hf.
  apply not_elem_of_dom in Hf. congruence.
Qed.

Lemma docs_at_insert_ne (fs : gmap string (gmap positive HistoryDoc)) (path p : string)
    (c : gmap positive HistoryDoc) :
  p ≠ path → docs_at (<[path := c]> fs) p = docs_at fs p.
Proof. intros Hne. unfold docs_at. by rewrite lookup_insert_ne. Qed.


(** X10. Every submission sends exactly two requests, to [/predict/] and to
    [/explain/] of the selected disease, both with the form data as it was
    submitted (unset fields included: the handler validates nothing), and
    both before it waits for either. *)
Theorem X10_submission_sends_two_requests `{JsRuntime}
    (cl : Closure) (env : SubmitEnv) (formData : gmap string JsValue) (w : World) :
  let r := handlePrediction cl env formData w in
  fetch_calls (events r)
  = [(backendUrl +:+ "/predict/" +:+ selectedDisease cl, formData);
     (backendUrl +:+ "/explain/" +:+ selectedDisease cl, formData)] ∧
  ∃ rest,
    events r
    = [SetIsLoading true; SetPrediction VNull; SetShapData VNull;
       Fetch (backendUrl +:+ "/predict/" +:+ selectedDisease cl) formData;
       Fetch (backendUrl +:+ "/explain/" +:+ selectedDisease cl) formData;
       AllSettled] ++ rest ∧
    fetch_calls rest = [].
Proof.
  cbv zeta. split; [apply handlePrediction_fetch_calls |].
  destruct w as [s fs]. run_handler.
  destruct (predictionPromise (predict_response env)) as [result|reason],
    (shapPromise (explain_response env)) as [v|reason'],
    (db_truthy cl && userId_truthy cl);
  try (destruct (get_prop result "prediction"));
  try (destruct (get_prop result "probability_has_disease"));
  try (destruct (addDoc_result env));
  eexists; split; reflexivity.
Qed.

(** X11. A submission never deletes or changes a stored document and never
    touches the collection of another path: every document of the store is
    still there afterwards, and the collection of the user has at most one
    document more. *)
Theorem X11_submission_only_appends `{JsRuntime}
    (cl : Closure) (env : SubmitEnv) (formData : gmap string JsValue) (w : World) :
  let w' := world_after (handlePrediction cl env formData w) in
  (∀ path, path ≠ collectionPath cl →
           docs_at (firestore w') path = docs_at (firestore w) path) ∧
  (∀ id d, docs_at (firestore w) (collectionPath cl) !! id = Some d →
           docs_at (firestore w') (collectionPath cl) !! id = Some d) ∧
  (size (docs_at (firestore w') (collectionPath cl))
   ≤ S (size (docs_at (firestore w) (collectionPath cl))))%nat.
Proof.
  cbv zeta.
  destruct (handlePrediction_store cl env formData w) as [->|(entry & _ & ->)].
  - repeat split; [done | lia].
  - split; [|split].
    + intros path Hne. by apply docs_at_insert_ne.
    + intros id d Hid. rewrite docs_at_insert. by apply insert_doc_keeps.
    + rewrite docs_at_insert, insert_doc_size. lia.
Qed.

(** X12. When the store accepts the write, or no write is attempted, and a
    successful classification body is not null, the form ends a submission
    showing for each call its own outcome: the body of a successful
    response, [{error: message}] of a failed one, each decided by its own
    response alone. *)
Theorem X12_each_call_shows_its_own_outcome `{JsRuntime}
    (cl : Closure) (env : SubmitEnv) (formData : gmap string JsValue) (w : World) :
  addDoc_result env = None ∨ db_truthy cl && userId_truthy cl = false →
  (∀ result, predictionPromise (predict_response env) = Fulfilled result →
             result ≠ VNull ∧ result ≠ VUndefined) →
  let w' := world_after (handlePrediction cl env formData w) in
  prediction (ui w') = shown (predictionPromise (predict_response env)) ∧
  shapData (ui w') = shown (shapPromise (explain_response env)).
Proof. apply handlePrediction_shows_both_outcomes. Qed.

(** Scenario A: the prediction is shown, and the error of the explanation. *)
Lemma X12_each_call_shows_its_own_outcome_witness :
  (addDoc_result scenario_A = None ∨ db_truthy signed_in && userId_truthy signed_in = false) ∧
  ∀ rt : JsRuntime,
    prediction (ui (world_after (handlePrediction signed_in scenario_A ∅ empty_world)))
    = positive_body ∧
    shapData (ui (world_after (handlePrediction signed_in scenario_A ∅ empty_world)))
    = error_object "Failed to fetch".
Proof.
  refine (conj (or_introl eq_refl) (fun rt => _)).
  refine (X12_each_call_shows_its_own_outcome signed_in scenario_A ∅ empty_world
            (or_introl eq_refl) _).
  intros result [= <-]. split; discriminate.
Defined.

(** ** A submission and the chart *)

Lemma aggregate_perm (s1 s2 : list HistoryDoc) :
  s1 ≡ₚ s2 → counts_map (aggregate s1) = counts_map (aggregate s2).
Proof.
  intros Hp. unfold aggregate. apply diseaseCounts_perm.
  rewrite !onSnapshot_history_positive.
  apply fmap_Permutation. by apply positive_docs_perm.
Qed.

Lemma counts_map_cons (d : string) (h : list string) :
  counts_map (diseaseCounts (d :: h)) = bump_map (counts_map (diseaseCounts h)) d.
Proof.
  rewrite (diseaseCounts_perm (d :: h) (h ++ [d])).
  - unfold diseaseCounts. rewrite !counts_map_fold, fold_left_app. done.
  - by rewrite Permutation_app_comm.
Qed.

Lemma aggregate_cons (entry : HistoryDoc) (docs : list HistoryDoc) :
  counts_map (aggregate (entry :: docs))
  = if is_one (prediction_result entry)
    then bump_map (counts_map (aggregate docs)) (disease_name entry)
    else counts_map (aggregate docs).
Proof.
  unfold aggregate. rewrite !onSnapshot_history_positive. unfold positive_docs.
  destruct (is_one (prediction_result entry)) eqn:Hone.
  - rewrite filter_cons_True by (by rewrite Hone). cbn [map].
    apply counts_map_cons.
  - by rewrite filter_cons_False by (rewrite Hone; exact id).
Qed.

Lemma snapshot_after_insert (entry : HistoryDoc) (c : gmap positive HistoryDoc) :
  map snd (map_to_list (insert_doc entry c)) ≡ₚ entry :: map snd (map_to_list c).
Proof.
  unfold insert_doc. rewrite map_to_list_insert; [done |].
  apply not_elem_of_dom, is_fresh.
Qed.

(** X13. When a submission is classified (with a body that is not null),
    the handle and the user are set and the store accepts the write, the
    next snapshot counts one more prediction for the selected disease if the
    label is the number 1, and gives the same counts as before otherwise. *)
Theorem X13_positive_submission_adds_one_to_the_chart `{JsRuntime}
    (cl : Closure) (env : SubmitEnv) (formData : gmap string JsValue) (w : World)
    (result label p : JsValue) :
  predictionPromise (predict_response env) = Fulfilled result →
  get_prop result "prediction" = inr label →
  get_prop result "probability_has_disease" = inr p →
  db_truthy cl && userId_truthy cl = true →
  addDoc_result env = None →
  let w' := world_after (handlePrediction cl env formData w) in
  counts_map (aggregate (history_docs cl w'))
  = if is_one label
    then bump_map (counts_map (aggregate (history_docs cl w))) (selectedDisease cl)
    else counts_map (aggregate (history_docs cl w)).
Proof.
  intros Hp Hlabel Hprob Hdb Hstore. cbv zeta.
  set (entry := {| disease_name := selectedDisease cl; prediction_result := label;
                   probability := p; formData := formData;
                   timestamp := server_time env |}).
  assert (Hfs : firestore (world_after (handlePrediction cl env formData w))
                = <[collectionPath cl := insert_doc entry (docs_at (firestore w) (collectionPath cl))]>
                    (firestore w)).
  { destruct w as [s fs]. run_handler. rewrite Hp, Hdb, Hlabel, Hprob, Hstore.
    by destruct (shapPromise (explain_response env)). }
  unfold history_docs, snapshot_of. rewrite Hfs, docs_at_insert.
  rewrite (aggregate_perm _ _ (snapshot_after_insert entry _)).
  by rewrite aggregate_cons.
Qed.

(** Scenario A adds one diabetes prediction to an empty chart. *)
Lemma X13_positive_submission_adds_one_to_the_chart_witness :
  get_prop positive_body "prediction" = inr (VNum 1) ∧
  db_truthy signed_in && userId_truthy signed_in = true ∧
  addDoc_result scenario_A = None ∧
  ∀ rt : JsRuntime,
    counts_map (aggregate (history_docs signed_in
       (world_after (handlePrediction signed_in scenario_A ∅ empty_world))))
    = bump_map (counts_map (aggregate (history_docs signed_in empty_world))) "diabetes".
Proof.
  refine (conj eq_refl (conj eq_refl (conj eq_refl (fun rt => _)))).
  exact (X13_positive_submission_adds_one_to_the_chart signed_in scenario_A ∅ empty_world
           positive_body (VNum 1) (VNum 0.82) eq_refl eq_refl eq_refl eq_refl eq_refl).
Defined.

(** ** More on the clear *)








Lemma fold_insert_doc_keeps (ds : list HistoryDoc) (c : gmap positive HistoryDoc)
    (id : positive) (x : HistoryDoc) :
  c !! id = Some x → fold_left (fun c d => insert_doc d c) ds c !! id = Some x.
Proof.
  revert c. induction ds as [|d ds IH]; intros c Hid; [done |].
  cbn [fold_left]. by apply IH, insert_doc_keeps.
Qed.

(** X15. A clear never touches the collection of another path, and a clear
    that does not announce success deletes nothing: every document of the
    log is still there. *)
Theorem X15_failed_clear_deletes_nothing (cl : Closure) (env : ClearEnv) (w : World) :
  let r := handleClearHistory cl env w in
  (∀ path, path ≠ collectionPath cl →
           docs_at (firestore (world_after r)) path = docs_at (firestore w) path) ∧
  (announces_success (events r) = false →
   ∀ id d, docs_at (firestore w) (collectionPath cl) !! id = Some d →
           docs_at (firestore (world_after r)) (collectionPath cl) !! id = Some d).
Proof.
  destruct w as [s fs]. cbv zeta. rewrite handleClearHistory_run. cbv zeta.
  destruct (negb (db_truthy cl) || negb (userId_truthy cl)); [done |].
  destruct (getDocs_result env) as [e|]; [done |].
  destruct (commit_result env) as [e|]; unfold world_after, events; cbn [fst snd firestore].
  - split.
    + intros path Hne. by apply docs_at_insert_ne.
    + intros _ id d Hid. rewrite docs_at_insert. by apply fold_insert_doc_keeps.
  - split.
    + intros path Hne. by rewrite !docs_at_insert_ne.
    + rewrite !announces_success_app. cbn. rewrite orb_true_r. done.
Qed.

(** The commit of a clear is rejected: the two entries are still there. *)
Lemma X15_failed_clear_deletes_nothing_witness :
  let env := {| getDocs_result := None; appended_meanwhile := [];
                commit_result := Some permission_denied |} in
  announces_success (events (handleClearHistory signed_in env world_with_history)) = false ∧
  docs_at (firestore (world_after (handleClearHistory signed_in env world_with_history)))
          (collectionPath signed_in) !! 1%positive = Some (heart_doc 1).
Proof.
  cbv zeta.
  assert (Hfail : announces_success
            (events (handleClearHistory signed_in
               {| getDocs_result := None; appended_meanwhile := [];
                  commit_result := Some permission_denied |} world_with_history)) = false).
  { vm_compute. reflexivity. }
  refine (conj Hfail _).
  refine (proj2 (X15_failed_clear_deletes_nothing signed_in _ world_with_history)
            Hfail 1%positive (heart_doc 1) _).
  vm_compute. reflexivity.
Defined.

(** Documents appended to a collection get fresh ids: the collection is the
    old one together with a disjoint map that holds the new documents. *)
Lemma fold_insert_doc_split (ds : list HistoryDoc) (c : gmap positive HistoryDoc) :
  ∃ m : gmap positive HistoryDoc,
    fold_left (fun c d => insert_doc d c) ds c = c ∪ m ∧
    c ##ₘ m ∧
    map snd (map_to_list m) ≡ₚ ds.
Proof.
  revert c. induction ds as [|d ds IH]; intros c.
  - exists ∅. cbn. rewrite map_to_list_empty.
    split; [by rewrite (right_id_L ∅ (∪)) | split; [apply map_disjoint_empty_r | done]].
  - cbn [fold_left]. destruct (IH (insert_doc d c)) as (m & Hfold & Hdisj & Hperm).
    unfold insert_doc in *. set (id := fresh (dom c)) in *.
    assert (Hc : c !! id = None) by apply not_elem_of_dom, is_fresh.
    assert (Hm : m !! id = None).
    { eapply map_disjoint_Some_l; [exact Hdisj | apply lookup_insert_eq]. }
    exists (<[id := d]> m). split; [|split].
    + rewrite Hfold, <- insert_union_l. by apply insert_union_r.
    + apply map_disjoint_insert_r. split; [done |].
      eapply map_disjoint_weaken_l; [exact Hdisj | by apply insert_subseteq].
    + rewrite map_to_list_insert by done. cbn. by rewrite Hperm.
Qed.

Lemma delete_read_from_union (c m : gmap positive HistoryDoc) :
  c ##ₘ m →
  fold_left (fun c id => delete id c) (map fst (map_to_list c)) (c ∪ m) = m.
Proof.
  intros Hdisj. apply map_eq. intros k. rewrite fold_delete_lookup.
  destruct (decide (k ∈ map fst (map_to_list c))) as [Hin|Hnin].
  - apply list_elem_of_fmap in Hin as ([k' d] & -> & Hin).
    apply elem_of_map_to_list in Hin. symmetry.
    by eapply map_disjoint_Some_l.
  - assert (Hc : c !! k = None).
    { destruct (c !! k) as [d|] eqn:Hk; [|done].
      exfalso. apply Hnin. apply list_elem_of_fmap. exists (k, d).
      split; [done | by apply elem_of_map_to_list]. }
    by rewrite lookup_union_r.
Qed.

(** X16. The clear is a read followed by a commit: after a clear that
    announces success, the log holds exactly the entries that other
    submissions appended between its read and its commit, whatever it held
    before. *)
Theorem X16_clear_keeps_what_arrived_meanwhile (cl : Closure) (env : ClearEnv) (w : World) :
  announces_success (events (handleClearHistory cl env w)) = true →
  history_docs cl (world_after (handleClearHistory cl env w)) ≡ₚ appended_meanwhile env.
Proof.
  intros Hok.
  destruct (announces_success_inv _ _ _ Hok) as (Hdb & Hread & Hcommit).
  destruct w as [s fs]. unfold history_docs.
  rewrite handleClearHistory_run. cbv zeta. rewrite Hdb, Hread, Hcommit.
  unfold world_after. cbn [fst snd firestore].
  unfold snapshot_of at 1. rewrite !docs_at_insert.
  destruct (fold_insert_doc_split (appended_meanwhile env) (docs_at fs (collectionPath cl)))
    as (m & -> & Hdisj & Hperm).
  unfold snapshot_of. by rewrite delete_read_from_union.
Qed.

(** A diabetes prediction lands during the clear of a log of two entries. *)
Lemma X16_clear_keeps_what_arrived_meanwhile_witness :
  let env := {| getDocs_result := None; appended_meanwhile := [diabetes_doc 1];
                commit_result := None |} in
  announces_success (events (handleClearHistory signed_in env world_with_history)) = true ∧
  history_docs signed_in (world_after (handleClearHistory signed_in env world_with_history))
  ≡ₚ [diabetes_doc 1].
Proof.
  cbv zeta.
  assert (Hok : announces_success
            (events (handleClearHistory signed_in
               {| getDocs_result := None; appended_meanwhile := [diabetes_doc 1];
                  commit_result := None |} world_with_history)) = true).
  { vm_compute. reflexivity. }
  exact (conj Hok (X16_clear_keeps_what_arrived_meanwhile signed_in _ world_with_history Hok)).
Defined.

(** X17. Closing the dialog of the clear only closes it: the title and the
    content stay, nothing else of the state or the store changes, and
    closing twice is closing once. After a clear with a handle and a user,
    the closed dialog still holds the text of the outcome. *)
Theorem X17_closing_the_dialog_keeps_its_text (cl : Closure) (env : ClearEnv) (w : World) :
  let closed := world_after (handleCloseClearHistoryMessage w) in
  outcome (handleCloseClearHistoryMessage w) = Normal tt ∧
  clearHistoryMessage (ui closed)
  = {| open := false; title := title (clearHistoryMessage (ui w));
       content := content (clearHistoryMessage (ui w)) |} ∧
  firestore closed = firestore w ∧
  (prediction (ui closed), shapData (ui closed), isLoading (ui closed),
   isClearingHistory (ui closed), predictionHistory (ui closed))
  = (prediction (ui w), shapData (ui w), isLoading (ui w),
     isClearingHistory (ui w), predictionHistory (ui w)) ∧
  world_after (handleCloseClearHistoryMessage closed) = closed ∧
  (db_truthy cl && userId_truthy cl = true →
   title (clearHistoryMessage (ui (world_after (handleCloseClearHistoryMessage
            (world_after (handleClearHistory cl env w))))))
   = match getDocs_result env, commit_result env with
     | None, None => "Success"
     | _, _ => "Error"
     end).
Proof.
  destruct w as [s fs]. cbv zeta. repeat split.
  intros Hdb. rewrite handleClearHistory_run. cbv zeta.
  replace (negb (db_truthy cl) || negb (userId_truthy cl)) with false
    by (by destruct (db_truthy cl), (userId_truthy cl)).
  by destruct (getDocs_result env) as [e|], (commit_result env) as [e'|].
Qed.

(** A closed dialog stays closed with its text after a successful clear. *)
Lemma X17_closing_the_dialog_keeps_its_text_witness :
  db_truthy signed_in && userId_truthy signed_in = true ∧
  title (clearHistoryMessage (ui (world_after (handleCloseClearHistoryMessage
           (world_after (handleClearHistory signed_in clear_goes_through world_with_history))))))
  = "Success".
Proof.
  refine (conj eq_refl _).
  exact (proj2 (proj2 (proj2 (proj2 (proj2
           (X17_closing_the_dialog_keeps_its_text signed_in clear_goes_through
              world_with_history))))) eq_refl).
Defined.

(** * Start-up and what the page shows *)

Lemma authStateChanged_ready (call : Auth.Env) (st : Auth.State) :
  (authStateChanged call st).1.1 = Normal tt ∧
  Auth.isAuthReady (authStateChanged call st).1.2 = true ∧
  Auth.db (authStateChanged call st).1.2 = Auth.db st.
Proof.
  unfold authStateChanged.
  by destruct (Auth.user call), (Auth.signIn_result call), (Auth.currentUser call).
Qed.

Lemma authStateChanged_userId (call : Auth.Env) (st : Auth.State) (uid : string) :
  Auth.userId (authStateChanged call st).1.2 = Some uid →
  Auth.userId st = Some uid ∨
  Auth.user call = Some uid ∨
  (Auth.user call = None ∧ Auth.signIn_result call = None ∧ Auth.currentUser call = Some uid).
Proof.
  unfold authStateChanged.
  destruct (Auth.user call), (Auth.signIn_result call), (Auth.currentUser call);
    cbn; naive_solver.
Qed.

Lemma calls_fold (calls : list Auth.Env) (st : Auth.State) :
  let st' := fold_left (fun st call => (authStateChanged call st).1.2) calls st in
  Auth.db st' = Auth.db st ∧
  Auth.isAuthReady st' = (if calls is [] then Auth.isAuthReady st else true) ∧
  ∀ uid, Auth.userId st' = Some uid →
    Auth.userId st = Some uid ∨
    ∃ call, call ∈ calls ∧
      (Auth.user call = Some uid ∨
       (Auth.user call = None ∧ Auth.signIn_result call = None ∧
        Auth.currentUser call = Some uid)).
Proof.
  cbv zeta. revert st. induction calls as [|call calls IH]; intros st; [by split; [|split; [|left]] |].
  cbn [fold_left]. destruct (IH (authStateChanged call st).1.2) as (Hdb & Hready & Huid).
  destruct (authStateChanged_ready call st) as (_ & Hr & Hd).
  split; [by rewrite Hdb |]. split.
  - rewrite Hready, Hr. by destruct calls.
  - intros uid Hu. destruct (Huid uid Hu) as [Hst|(c & Hc & Hcase)].
    + destruct (authStateChanged_userId call st uid Hst) as [?|Hcase]; [by left |].
      right. exists call. split; [by left | done].
    + right. exists c. split; [by right | done].
Qed.

(** X18. Start-up. Without a Firebase configuration the app declares
    authentication ready with no database handle and no user. With one, the
    handle is set, authentication is ready as soon as the auth listener has
    been called once, whatever signing in does, and the user id is only ever
    the uid of a user the listener was given or signed in. If the
    initialisation throws, nothing is set and authentication never becomes
    ready. The auth listener itself never throws. *)
Theorem X18_startup_becomes_ready (env : Auth.Env) (calls : list Auth.Env) :
  (Auth.firebase_config env = None →
   start env calls = {| Auth.db := None; Auth.userId := None; Auth.isAuthReady := true |}) ∧
  (Auth.firebase_config env = Some None →
   Auth.db (start env calls) = Some firestoreDb ∧
   Auth.isAuthReady (start env calls) = negb (bool_decide (calls = [])) ∧
   ∀ uid, Auth.userId (start env calls) = Some uid →
     ∃ call, call ∈ calls ∧
       (Auth.user call = Some uid ∨
        (Auth.user call = None ∧ Auth.signIn_result call = None ∧
         Auth.currentUser call = Some uid))) ∧
  (∀ e, Auth.firebase_config env = Some (Some e) →
   (initialize env Auth.initial).1.1 = Throw e ∧ start env calls = Auth.initial) ∧
  (∀ call st, (authStateChanged call st).1.1 = Normal tt).
Proof.
  unfold start, initialize. split; [|split; [|split]].
  - by intros ->.
  - intros ->. cbn [existsb orb].
    destruct (calls_fold calls
                {| Auth.db := Some firestoreDb; Auth.userId := Auth.userId Auth.initial;
                   Auth.isAuthReady := Auth.isAuthReady Auth.initial |})
      as (Hdb & Hready & Huid).
    split; [done |]. split; [rewrite Hready; by destruct calls |].
    intros uid Hu. by destruct (Huid uid Hu) as [?|?].
  - by intros e ->.
  - intros call st. apply authStateChanged_ready.
Qed.

(** Anonymous sign-in succeeds at the first call of the listener. *)
Lemma X18_startup_becomes_ready_witness :
  let env := {| Auth.firebase_config := Some None; Auth.user := None;
                Auth.initial_auth_token := None; Auth.signIn_result := None;
                Auth.currentUser := Some "user-1" |} in
  Auth.firebase_config env = Some None ∧
  start env [env] = {| Auth.db := Some firestoreDb; Auth.userId := Some "user-1";
                       Auth.isAuthReady := true |} ∧
  Auth.isAuthReady (start env [env]) = true.
Proof.
  cbv zeta. refine (conj eq_refl (conj eq_refl _)).
  exact (proj1 (proj2 (proj1 (proj2
           (X18_startup_becomes_ready
              {| Auth.firebase_config := Some None; Auth.user := None;
                 Auth.initial_auth_token := None; Auth.signIn_result := None;
                 Auth.currentUser := Some "user-1" |}
              [{| Auth.firebase_config := Some None; Auth.user := None;
                  Auth.initial_auth_token := None; Auth.signIn_result := None;
                  Auth.currentUser := Some "user-1" |}])) eq_refl))).
Defined.

Lemma start_userId (env : Auth.Env) (calls : list Auth.Env) (uid : string) :
  Auth.userId (start env calls) = Some uid →
  Auth.firebase_config env = Some None ∧
  ∃ call, call ∈ calls ∧
    (Auth.user call = Some uid ∨
     (Auth.user call = None ∧ Auth.signIn_result call = None ∧
      Auth.currentUser call = Some uid)).
Proof.
  unfold start, initialize.
  destruct (Auth.firebase_config env) as [[e|]|]; cbn [existsb orb]; [done | | done].
  intros Hu. split; [done |].
  destruct (calls_fold calls
              {| Auth.db := Some firestoreDb; Auth.userId := Auth.userId Auth.initial;
                 Auth.isAuthReady := Auth.isAuthReady Auth.initial |})
    as (_ & _ & Huid).
  by destruct (Huid uid Hu) as [?|?].
Qed.

Lemma no_store_without_user `{JsRuntime} (cl : Closure) (env : SubmitEnv)
    (formData : gmap string JsValue) (w : World) :
  db_truthy cl && userId_truthy cl = false →
  addDoc_calls (events (handlePrediction cl env formData w)) = [] ∧
  firestore (world_after (handlePrediction cl env formData w)) = firestore w.
Proof.
  intros Hdb. destruct w as [s fs]. run_handler. rewrite Hdb.
  destruct (predictionPromise (predict_response env)),
    (shapPromise (explain_response env)); split; reflexivity.
Qed.

Lemma clear_noop_without_user (cl : Closure) (env : ClearEnv) (w : World) :
  db_truthy cl && userId_truthy cl = false →
  handleClearHistory cl env w = (Normal tt, w, []).
Proof.
  intros Hdb. unfold handleClearHistory.
  replace (negb (db_truthy cl) || negb (userId_truthy cl)) with true; [done |].
  by destruct (db_truthy cl), (userId_truthy cl).
Qed.

(** X19. The history listener is registered exactly when authentication is
    ready and the handlers have a store handle and a user. Without a handle
    or a user (an empty user id counts as none), a submission makes no write
    and leaves the store as it was, and a clear does nothing at all. This is
    the case after a start-up without a Firebase configuration, and after
    one where no call of the auth listener was given or signed in a user. *)
Theorem X19_without_user_nothing_is_stored `{JsRuntime}
    (st : Auth.State) (disease : string) (app : option string)
    (env : SubmitEnv) (cenv : ClearEnv) (formData : gmap string JsValue) (w : World)
    (senv : Auth.Env) (calls : list Auth.Env) :
  let cl := closure st disease app in
  subscribes st = Auth.isAuthReady st && (db_truthy cl && userId_truthy cl) ∧
  (db_truthy cl && userId_truthy cl = false →
   addDoc_calls (events (handlePrediction cl env formData w)) = [] ∧
   firestore (world_after (handlePrediction cl env formData w)) = firestore w ∧
   handleClearHistory cl cenv w = (Normal tt, w, [])) ∧
  (Auth.firebase_config senv = None ∨
   Forall (fun call => Auth.user call = None ∧
                       (is_Some (Auth.signIn_result call) ∨ Auth.currentUser call = None))
          calls →
   subscribes (start senv calls) = false ∧
   db_truthy (closure (start senv calls) disease app)
   && userId_truthy (closure (start senv calls) disease app) = false).
Proof.
  cbv zeta. split; [|split].
  - unfold subscribes, db_truthy, userId_truthy, closure. cbn.
    by destruct (Auth.isAuthReady st), (Auth.db st), (Auth.userId st) as [u|];
      try destruct (bool_decide (u = "")).
  - intros Hdb. destruct (no_store_without_user _ env formData w Hdb) as [Hc Hs].
    by rewrite Hc, Hs, clear_noop_without_user.
  - intros Hnone.
    assert (Hu : Auth.userId (start senv calls) = None).
    { destruct (Auth.userId (start senv calls)) as [uid|] eqn:Huid; [|done].
      destruct (start_userId _ _ _ Huid) as (Hcfg & call & Hin & Hcase).
      destruct Hnone as [Hnone|Hall]; [congruence |].
      destruct (proj1 (Forall_forall _ _) Hall call Hin) as (Hno & Hfail).
      destruct Hcase as [?|(_ & Hok & Hcur)]; [congruence |].
      destruct Hfail as [[e He]|?]; congruence. }
    unfold subscribes, db_truthy, userId_truthy, closure. cbn. rewrite Hu.
    by destruct (Auth.isAuthReady _), (Auth.db _).
Qed.

(** Start-up without a configuration: a positive prediction is not stored. *)
Lemma X19_without_user_nothing_is_stored_witness :
  let senv := {| Auth.firebase_config := None; Auth.user := None;
                 Auth.initial_auth_token := None; Auth.signIn_result := None;
                 Auth.currentUser := None |} in
  let cl := closure (start senv []) "diabetes" None in
  db_truthy cl && userId_truthy cl = false ∧
  ∀ rt : JsRuntime,
    addDoc_calls (events (handlePrediction cl scenario_A ∅ empty_world)) = [].
Proof.
  cbv zeta. refine (conj eq_refl (fun rt => _)).
  exact (proj1 (proj1 (proj2
           (X19_without_user_nothing_is_stored
              (start {| Auth.firebase_config := None; Auth.user := None;
                        Auth.initial_auth_token := None; Auth.signIn_result := None;
                        Auth.currentUser := None |} [])
              "diabetes" None scenario_A clear_goes_through ∅ empty_world
              {| Auth.firebase_config := None; Auth.user := None;
                 Auth.initial_auth_token := None; Auth.signIn_result := None;
                 Auth.currentUser := None |} [])) eq_refl)).
Defined.

(** ** The result box and the explanation *)

Lemma result_box_error (msg : string) :
  msg ≠ "" → result_box (error_object msg) = Some (ErrorText (VStr msg)).
Proof.
  intros Hmsg. by destruct msg.
Qed.

Lemma shows_explanation_error (msg : string) :
  msg ≠ "" → shows_explanation (error_object msg) = inr false.
Proof.
  intros Hmsg. by destruct msg.
Qed.

(** The values whose conversion to a primitive throws are those [ToString]
    throws on. *)
Lemma ToString_throws `{JsRuntime} (v : JsValue) :
  throws (ToString v) = unconvertible v.
Proof.
  revert v. fix IH 1. intros [| |[|]|x|s|items|props]; try reflexivity.
  - cbn [ToString unconvertible]. revert items. fix IHl 1.
    intros [|x rest]; [reflexivity |].
    specialize (IH x). specialize (IHl rest).
    rewrite <- IH, <- IHl. clear IH IHl.
    destruct x; cbn; try (destruct rest; [reflexivity |]);
    repeat match goal with
           | |- context [match ?t with inl _ => _ | inr _ => _ end] => destruct t eqn:?
           | |- context [if ?b then _ else _] => destruct b eqn:?
           end; try reflexivity; try discriminate.
  - cbn. by destruct (has_key "toString" props).
Qed.

(** X20. What the page shows after a submission. A classification that
    fails with a message shows that message in the result box, whatever
    else happens. An explanation that fails with a message is never drawn.
    When the store accepts the write or none is attempted, a classification
    body that is an object without a truthy [error] shows the verdict,
    Positive exactly when its [prediction] is the number 1, provided its
    probability can be converted to a number; when it cannot, drawing the
    box throws. Selecting a disease removes the result box and the
    explanation. *)
Theorem X20_what_the_page_shows `{JsRuntime}
    (cl : Closure) (env : SubmitEnv) (formData : gmap string JsValue) (w : World) :
  let w' := world_after (handlePrediction cl env formData w) in
  (∀ reason, predictionPromise (predict_response env) = Rejected reason →
             message reason ≠ "" →
             result_box (prediction (ui w')) = Some (ErrorText (VStr (message reason)))) ∧
  (∀ reason, shapPromise (explain_response env) = Rejected reason →
             message reason ≠ "" →
             shows_explanation (shapData (ui w')) = inr false) ∧
  (∀ props, predictionPromise (predict_response env) = Fulfilled (VObj props) →
            truthy (assoc "error" props) = false →
            addDoc_result env = None ∨ db_truthy cl && userId_truthy cl = false →
            result_box (prediction (ui w'))
            = if unconvertible (assoc "probability_has_disease" props) then None
              else Some (Verdict (if is_one (assoc "prediction" props)
                                  then "Positive" else "Negative")
                                 (assoc "probability_has_disease" props))) ∧
  (∀ disease,
     let selected := world_after (handleDiseaseSelect disease cl w) in
     result_box (prediction (ui selected)) = Some NoResult ∧
     shows_explanation (shapData (ui selected)) = inr false ∧
     firestore selected = firestore w ∧
     outcome (handleDiseaseSelect disease cl w)
     = Normal {| selectedDisease := disease; db := db cl; userId := userId cl;
                 app_id := app_id cl |}).
Proof.
  cbv zeta. split; [|split; [|split]].
  - intros reason Hp Hmsg.
    assert (Hshown : prediction (ui (world_after (handlePrediction cl env formData w)))
                     = error_object (message reason)).
    { destruct w as [s fs]. run_handler. rewrite Hp.
      by destruct (shapPromise (explain_response env)). }
    rewrite Hshown. by apply result_box_error.
  - intros reason Hs Hmsg.
    assert (Hshown : shapData (ui (world_after (handlePrediction cl env formData w)))
                     = error_object (message reason) ∨
                     shapData (ui (world_after (handlePrediction cl env formData w))) = VNull).
    { destruct w as [s fs]. run_handler. rewrite Hs.
      destruct (predictionPromise (predict_response env)) as [result|reason'],
        (db_truthy cl && userId_truthy cl);
      try (destruct (get_prop result "prediction"));
      try (destruct (get_prop result "probability_has_disease"));
      try (destruct (addDoc_result env)); auto. }
    destruct Hshown as [-> | ->]; [by apply shows_explanation_error | done].
  - intros props Hp Herr Hstore.
    assert (Hshown : prediction (ui (world_after (handlePrediction cl env formData w)))
                     = VObj props).
    { destruct (handlePrediction_shows_both_outcomes cl env formData w Hstore) as [Hshown _].
      - intros result. rewrite Hp. intros [= <-]. by split.
      - by rewrite Hshown, Hp. }
    rewrite Hshown. unfold result_box. cbn [truthy get_prop]. by rewrite Herr.
  - intros disease. destruct w as [s fs]. repeat split.
Qed.

(** Scenario A shows a positive verdict. *)
Lemma X20_what_the_page_shows_witness :
  truthy (assoc "error" [("prediction", VNum 1); ("probability_has_disease", VNum 0.82)]) = false ∧
  (addDoc_result scenario_A = None ∨ db_truthy signed_in && userId_truthy signed_in = false) ∧
  ∀ rt : JsRuntime,
    result_box (prediction (ui (world_after
       (handlePrediction signed_in scenario_A ∅ empty_world))))
    = Some (Verdict "Positive" (VNum 0.82)).
Proof.
  refine (conj eq_refl (conj (or_introl eq_refl) (fun rt => _))).
  exact (proj1 (proj2 (proj2
           (X20_what_the_page_shows signed_in scenario_A ∅ empty_world)))
           [("prediction", VNum 1); ("probability_has_disease", VNum 0.82)]
           eq_refl eq_refl (or_introl eq_refl)).
Defined.

(** ** The legend of the chart and the protocol of the clear *)

Lemma capitalize_available_inj (d1 d2 : string) :
  d1 ∈ availableDiseases → d2 ∈ availableDiseases →
  capitalize d1 = capitalize d2 → d1 = d2.
Proof.
  intros H1 H2.
  repeat (apply elem_of_cons in H1 as [->|H1]); try (by apply elem_of_nil in H1);
  repeat (apply elem_of_cons in H2 as [->|H2]); try (by apply elem_of_nil in H2);
  vm_compute; congruence.
Qed.

Lemma toUpperCase_ascii_idemp (c : ascii) :
  toUpperCase_ascii (toUpperCase_ascii c) = toUpperCase_ascii c.
Proof. by destruct c as [[] [] [] [] [] [] [] []]. Qed.

Lemma capitalize_idemp (d : string) : capitalize (capitalize d) = capitalize d.
Proof. destruct d as [|c d]; [done |]. cbn. by rewrite toUpperCase_ascii_idemp. Qed.

Lemma NoDup_fmap_inj_on {A B} (f : A → B) (l : list A) (x y : A) :
  NoDup (map f l) → x ∈ l → y ∈ l → f x = f y → x = y.
Proof.
  induction l as [|a l IH]; [by intros _ ?%elem_of_nil |].
  cbn [map]. rewrite NoDup_cons. intros [Ha Hnd] Hx Hy Hf.
  apply elem_of_cons in Hx as [->|Hx], Hy as [->|Hy]; [done | | |by apply IH].
  - exfalso. apply Ha. rewrite Hf. by apply (list_elem_of_fmap_2 f).
  - exfalso. apply Ha. rewrite <- Hf. by apply (list_elem_of_fmap_2 f).
Qed.

(** X21. When every entry of the history is one of the four available
    diseases, the slices of the chart have different names, so the legend
    tells them apart. In general they need not: when a history of ordinary
    keys holds a category and, as another category, its capitalised form
    (heart and Heart), the two slices get the same name. *)
Theorem X21_legend_names (predictionHistory : list string) :
  (Forall (fun disease => disease ∈ availableDiseases) predictionHistory →
   NoDup (map name (pieChartData predictionHistory))) ∧
  (Forall (fun category => ordinary_key category = true) predictionHistory →
   ∀ category : string,
     category ∈ predictionHistory →
     capitalize category ∈ predictionHistory →
     capitalize category ≠ category →
     ∃ i j : nat,
       i ≠ j ∧
       name <$> pieChartData predictionHistory !! i = Some (capitalize category) ∧
       name <$> pieChartData predictionHistory !! j = Some (capitalize category)).
Proof.
  split.
  - intros Hall.
    unfold pieChartData. rewrite diseaseCounts_closed_form, !map_map. cbn.
    apply NoDup_fmap_2_strong; [|apply first_seen_NoDup].
    intros d1 d2 Hd1 Hd2.
    apply capitalize_available_inj;
      apply (proj1 (Forall_forall _ _) Hall); by apply first_seen_elem.
  - intros _ category Hin Hcap Hne.
    apply first_seen_elem, list_elem_of_lookup in Hin as [i Hi].
    apply first_seen_elem, list_elem_of_lookup in Hcap as [j Hj].
    exists i, j. split; [intros ->; congruence |].
    unfold pieChartData. rewrite diseaseCounts_closed_form, map_map.
    rewrite !list_lookup_fmap, Hi, Hj. cbn. by rewrite capitalize_idemp.
Qed.

(** Two diseases, two names; heart and Heart, one name twice. *)
Lemma X21_legend_names_witness :
  Forall (fun disease => disease ∈ availableDiseases) ["heart"; "kidney"; "heart"] ∧
  NoDup (map name (pieChartData ["heart"; "kidney"; "heart"])) ∧
  Forall (fun category => ordinary_key category = true) ["heart"; "Heart"] ∧
  ∃ i j : nat,
    i ≠ j ∧
    name <$> pieChartData ["heart"; "Heart"] !! i = Some "Heart" ∧
    name <$> pieChartData ["heart"; "Heart"] !! j = Some "Heart".
Proof.
  assert (Hall : Forall (fun disease => disease ∈ availableDiseases) ["heart"; "kidney"; "heart"]).
  { repeat constructor. }
  assert (Hkeys : Forall (fun category => ordinary_key category = true) ["heart"; "Heart"]).
  { repeat constructor. }
  refine (conj Hall (conj (proj1 (X21_legend_names _) Hall) (conj Hkeys _))).
  refine (proj2 (X21_legend_names ["heart"; "Heart"]) Hkeys "heart" _ _ _).
  - by left.
  - right. by left.
  - discriminate.
Defined.

Lemma store_events_deletes (path : string) (ids : list positive) :
  List.filter is_store_event (map (BatchDelete path) ids) = map (BatchDelete path) ids.
Proof. induction ids as [|id ids IH]; [done |]. cbn. by rewrite IH. Qed.

(** X22. The store operations of a clear, in order: none without a handle
    or a user; otherwise one read of the collection of the user and, when
    the read succeeds, one deletion for each document the read returned, in
    the order of the snapshot and each document once, followed by one
    commit. A clear never writes a document. *)
Theorem X22_clear_reads_then_deletes_what_it_read (cl : Closure) (env : ClearEnv) (w : World) :
  let path := collectionPath cl in
  let ids := map fst (snapshot_of (firestore w) path) in
  NoDup ids ∧
  List.filter is_store_event (events (handleClearHistory cl env w))
  = if negb (db_truthy cl) || negb (userId_truthy cl) then []
    else match getDocs_result env with
         | Some _ => [GetDocs path]
         | None => [GetDocs path] ++ map (BatchDelete path) ids ++ [BatchCommit]
         end.
Proof.
  cbv zeta. split; [apply NoDup_fst_map_to_list |].
  destruct w as [s fs]. rewrite handleClearHistory_run. cbv zeta.
  destruct (negb (db_truthy cl) || negb (userId_truthy cl)); [done |].
  destruct (getDocs_result env) as [e|]; [done |].
  destruct (commit_result env) as [e|]; unfold events; cbn [snd firestore];
    rewrite !List.filter_app, store_events_deletes; done.
Qed.
